(** * CFBPrediction: the stats comparator and player lookup of [logic_model.py]

    A shallow embedding of [src/logic_model.py] and the properties its
    specification states about it.

    Modelling conventions.
    - Python [str] is [string]; the text handled is ASCII, and the [str]
      methods below follow CPython on ASCII text (characters above 127 are
      treated as uncased).
    - Python [int] is [Z].  A [float] is kept abstract: the program only tests
      it for truth and prints it.
    - A Python [dict] is an association list in insertion order with unique
      keys: [dict_get] reads the binding of a key, [dict_set] overwrites it in
      place or appends it.
    - The remote collaborator (the [cfbd] client) is a function from a request
      to either the exception it raises or the records it returns; opening
      and closing the client ([with cfbd.ApiClient(...)]) has no effect of
      its own.
    - Console output, prompts and remote requests are recorded, in order, as a
      list of [event]s; exceptions are explicit results. *)

From Stdlib Require Import String Ascii List ZArith NArith Bool Lia Permutation Sorted.
From Stdlib Require Import DecimalString.
From Stdlib Require OrderedTypeEx.
Import ListNotations.

Local Open Scope list_scope.
Local Open Scope string_scope.

(** ** Python string methods (ASCII) *)

Module Py.

Definition is_upper (c : ascii) : bool :=
  let n := N_of_ascii c in (65 <=? n)%N && (n <=? 90)%N.

Definition is_lower (c : ascii) : bool :=
  let n := N_of_ascii c in (97 <=? n)%N && (n <=? 122)%N.

(** A cased character, in the sense of [str.title]. *)
Definition is_cased (c : ascii) : bool := is_upper c || is_lower c.

Definition to_lower (c : ascii) : ascii :=
  if is_upper c then ascii_of_N (N_of_ascii c + 32) else c.

Definition to_upper (c : ascii) : ascii :=
  if is_lower c then ascii_of_N (N_of_ascii c - 32) else c.

Fixpoint map_chars (f : ascii -> ascii) (s : string) : string :=
  match s with
  | EmptyString => EmptyString
  | String c s' => String (f c) (map_chars f s')
  end.

(** [s.lower()] and [s.upper()]. *)
Definition lower (s : string) : string := map_chars to_lower s.
Definition upper (s : string) : string := map_chars to_upper s.

(** [s.capitalize()]: first character upper-cased, the rest lower-cased. *)
Definition capitalize (s : string) : string :=
  match s with
  | EmptyString => EmptyString
  | String c s' => String (to_upper c) (lower s')
  end.

(** [s.title()]: a character that follows a cased character is lower-cased,
    any other character is upper-cased. *)
Fixpoint title_from (previous_is_cased : bool) (s : string) : string :=
  match s with
  | EmptyString => EmptyString
  | String c s' =>
      String (if previous_is_cased then to_lower c else to_upper c)
             (title_from (is_cased c) s')
  end.

Definition title (s : string) : string := title_from false s.

(** [s.startswith(old)]. *)
Fixpoint startswith (old s : string) : bool :=
  match old with
  | EmptyString => true
  | String a old' =>
      match s with
      | EmptyString => false
      | String b s' => Ascii.eqb a b && startswith old' s'
      end
  end.

(** [old in s]: [old] occurs in [s] as a substring. *)
Fixpoint contains (old s : string) : bool :=
  match s with
  | EmptyString => startswith old EmptyString
  | String _ s' => startswith old s || contains old s'
  end.

(** [s.replace(old, new)]: every non-overlapping occurrence of [old], found
    from the left, is replaced by [new].  [skip] counts the characters of the
    occurrence just replaced that are still to be passed over. *)
Fixpoint replace_from (old new : string) (skip : nat) (s : string) : string :=
  match s with
  | EmptyString => EmptyString
  | String c s' =>
      match skip with
      | S k => replace_from old new k s'
      | O =>
          if startswith old s
          then new ++ replace_from old new (String.length old - 1) s'
          else String c (replace_from old new 0 s')
      end
  end.

(** With an empty [old], Python puts [new] before every character and at the
    end. *)
Fixpoint interleave (new s : string) : string :=
  match s with
  | EmptyString => new
  | String c s' => new ++ String c (interleave new s')
  end.

Definition replace (old new s : string) : string :=
  match old with
  | EmptyString => interleave new s
  | _ => replace_from old new 0 s
  end.

(** ["c" * n]. *)
Fixpoint repeat_char (c : ascii) (n : nat) : string :=
  match n with
  | O => EmptyString
  | S k => String c (repeat_char c k)
  end.

(** [f"{s:<width}"]: padded with spaces on the right, never truncated. *)
Definition ljust (s : string) (width : nat) : string :=
  s ++ repeat_char " "%char (width - String.length s).

(** [str(n)] for an [int]. *)
Definition str_of_int (n : Z) : string := NilZero.string_of_int (Z.to_int n).

(** The line feed of ["\n"]. *)
Definition nl : string := String (ascii_of_N 10) EmptyString.

(** The white space [int] skips around a literal, on ASCII text: tab, line
    feed, vertical tab, form feed, carriage return and space (the separators
    [0x1C]-[0x1F] are not skipped). *)
Definition is_space (c : ascii) : bool :=
  let n := N_of_ascii c in
  ((9 <=? n)%N && (n <=? 13)%N) || (n =? 32)%N.

Definition digit_of (c : ascii) : option Z :=
  let n := N_of_ascii c in
  if (48 <=? n)%N && (n <=? 57)%N then Some (Z.of_N (n - 48)) else None.

Fixpoint lstrip (s : string) : string :=
  match s with
  | String c s' => if is_space c then lstrip s' else s
  | EmptyString => EmptyString
  end.

(** The digits of an [int] literal: a digit, then digits each optionally
    preceded by one underscore; trailing white space is allowed.
    [acc] is the value read so far and [after_digit] says whether the previous
    character was a digit. *)
Fixpoint int_digits (acc : Z) (after_digit : bool) (s : string) : option Z :=
  match s with
  | EmptyString => if after_digit then Some acc else None
  | String c s' =>
      match digit_of c with
      | Some d => int_digits (10 * acc + d) true s'
      | None =>
          if after_digit then
            if Ascii.eqb c "_"%char then
              match s' with
              | String c' _ =>
                  match digit_of c' with
                  | Some _ => int_digits acc false s'
                  | None => None
                  end
              | EmptyString => None
              end
            else if is_space c then
              match lstrip s' with EmptyString => Some acc | _ => None end
            else None
          else None
      end
  end.

(** The value of a well-formed literal: white space, an optional sign, the
    digits, white space. *)
Definition int_literal (s : string) : option Z :=
  match lstrip s with
  | String c s' =>
      if Ascii.eqb c "-"%char then option_map Z.opp (int_digits 0 false s')
      else if Ascii.eqb c "+"%char then int_digits 0 false s'
      else int_digits 0 false (String c s')
  | EmptyString => None
  end.

(** The number of digit characters of a string. *)
Fixpoint count_digits (s : string) : N :=
  match s with
  | EmptyString => 0
  | String c s' =>
      match digit_of c with
      | Some _ => N.succ (count_digits s')
      | None => count_digits s'
      end
  end.

(** The limit [int] puts on the digits of a literal (leading zeros counted,
    sign, underscores and white space not): the interpreter's default, which
    the program does not change. *)
Definition max_str_digits : N := 4300.

(** [int(s)] for a [str]: [None] stands for the [ValueError], raised for a
    string that is not a literal and for a literal with too many digits. *)
Definition int_of_str (s : string) : option Z :=
  match int_literal s with
  | Some n => if (count_digits s <=? max_str_digits)%N then Some n else None
  | None => None
  end.

(** [sorted(l)] for a list of [str]: ascending by code points, stable. *)
Fixpoint insert_sorted (x : string) (l : list string) : list string :=
  match l with
  | [] => [x]
  | y :: l' => if String.leb x y then x :: l else y :: insert_sorted x l'
  end.

Definition sorted (l : list string) : list string :=
  fold_right insert_sorted [] l.

(** [repr] of a list of plain strings (no quote, backslash or control
    character in them), as [print] shows it. *)
Definition repr_str_list (l : list string) : string :=
  "[" ++ String.concat ", " (map (fun s => "'" ++ s ++ "'") l) ++ "]".

End Py.

(** ** Python values and dictionaries *)

(** A [float], as far as the program observes it: its truth value and the
    text [str] gives for it. *)
Module PyFloat.
Record t := { nonzero : bool; str : string }.
End PyFloat.

#[warnings="-register-all"]
Inductive value :=
| VNone
| VBool (b : bool)
| VInt (n : Z)
| VFloat (f : PyFloat.t)
| VStr (s : string)
| VList (l : list value)
| VDict (d : list (string * value)).

Definition dict := list (string * value).

(** [bool(v)]. *)
Definition truthy (v : value) : bool :=
  match v with
  | VNone => false
  | VBool b => b
  | VInt n => negb (n =? 0)%Z
  | VFloat f => PyFloat.nonzero f
  | VStr s => negb (s =? "")
  | VList l => match l with [] => false | _ => true end
  | VDict d => match d with [] => false | _ => true end
  end.

(** [isinstance(v, dict)]. *)
Definition isinstance_dict (v : value) : bool :=
  match v with VDict _ => true | _ => false end.

(** The mapping held by a value known to be a [dict]. *)
Definition as_dict (v : value) : dict :=
  match v with VDict d => d | _ => [] end.

(** [d.keys()], in insertion order. *)
Definition keys (d : dict) : list string := map fst d.

(** [d[k]], when [k] is a key of [d]. *)
Fixpoint dict_get (k : string) (d : dict) : option value :=
  match d with
  | [] => None
  | (k', v) :: d' => if k' =? k then Some v else dict_get k d'
  end.

(** [d.get(k, default)]. *)
Definition get (d : dict) (k : string) (default : value) : value :=
  match dict_get k d with Some v => v | None => default end.

(** [d[k] = v]. *)
Fixpoint dict_set (k : string) (v : value) (d : dict) : dict :=
  match d with
  | [] => [(k, v)]
  | (k', v') :: d' => if k' =? k then (k, v) :: d' else (k', v') :: dict_set k v d'
  end.

(** [bool(l)] for a list or a [dict]. *)
Definition nonempty {A} (l : list A) : bool :=
  match l with [] => false | _ => true end.

(** ** Records of the remote collaborator *)

(** A roster entry: the attributes [name] and [position], either of which
    may be [None]. *)
Module RosterPlayer.
Record t := { name : option string; position : option string }.
End RosterPlayer.

(** A player-season-stats record: the attribute [player] and the mapping
    [to_dict()] returns. *)
Module PlayerStat.
Record t := { player : option string; to_dict : dict }.
End PlayerStat.

(** ** Effects: exceptions, events and the remote collaborator *)

(** The exceptions of the program, all of them subclasses of [Exception];
    each carries the text [str(e)] gives.  Interrupts that are not
    [Exception]s ([KeyboardInterrupt], [SystemExit]) are not modelled. *)
Inductive exn :=
| ApiException (msg : string)
| ValueError (msg : string)
| AttributeError (msg : string)
| EOFError (msg : string)
| OtherException (msg : string).

Definition exn_str (e : exn) : string :=
  match e with
  | ApiException m | ValueError m | AttributeError m | EOFError m | OtherException m => m
  end.

Inductive request :=
| AdvancedSeasonStats (year : Z) (team : string)
| Roster (team : string) (year : Z)
| PlayerSeasonStats (year : Z) (team category : string).

(** What the outside world sees, in order: a line written by [print], the
    prompt of an [input], a request sent to the remote collaborator. *)
Inductive event :=
| Print (line : string)
| Prompt (text : string)
| Call (r : request).

(** What the program takes from its environment.  An advanced-season-stats
    record is identified with the mapping its [to_dict()] returns.
    [repr_container] is the interpreter's [str] of a list or a dict. *)
Record runtime := {
  access_token : option string;
  get_advanced_season_stats : Z -> string -> exn + list dict;
  get_roster : string -> Z -> exn + list RosterPlayer.t;
  get_player_season_stats : Z -> string -> string -> exn + list PlayerStat.t;
  repr_container : value -> string
}.

(** A computation: the events it produced, then the exception it raised or
    the value it returned. *)
Definition M (A : Type) : Type := (list event * (exn + A))%type.

Definition ret {A} (a : A) : M A := ([], inr a).

Definition raise {A} (e : exn) : M A := ([], inl e).

Definition bind {A B} (m : M A) (f : A -> M B) : M B :=
  match m with
  | (t, inl e) => (t, inl e)
  | (t, inr a) => let (t', r) := f a in ((t ++ t')%list, r)
  end.

Declare Scope monad_scope.
Delimit Scope monad_scope with monad.
Notation "x <- m ;; k" := (bind m (fun x => k))
  (at level 61, m at next level, right associativity) : monad_scope.
Notation "m ;; k" := (bind m (fun _ => k))
  (at level 61, right associativity) : monad_scope.
Notation "' pat <- m ;; k" := (bind m (fun x => match x with pat => k end))
  (at level 61, pat pattern, m at next level, right associativity) : monad_scope.
Local Open Scope monad_scope.

(** [try: body except ...: handler]; a handler answering [None] does not
    catch the exception. *)
Definition try_except {A} (body : M A) (handler : exn -> option (M A)) : M A :=
  match body with
  | (t, inl e) =>
      match handler e with
      | Some h => let (t', r) := h in ((t ++ t')%list, r)
      | None => (t, inl e)
      end
  | (t, inr a) => (t, inr a)
  end.

Definition print (line : string) : M unit := ([Print line], inr tt).

(** A remote call: the request is sent, then the collaborator's answer is
    returned or raised. *)
Definition remote {A} (r : request) (answer : exn + A) : M A := ([Call r], answer).

Fixpoint for_each {A} (l : list A) (body : A -> M unit) : M unit :=
  match l with
  | [] => ret tt
  | x :: l' => body x ;; for_each l' body
  end.

(** [s.lower()] on an attribute that may be [None]. *)
Definition attr_lower (s : option string) : M string :=
  match s with
  | Some s => ret (Py.lower s)
  | None => raise (AttributeError "'NoneType' object has no attribute 'lower'")
  end.

(** The truth value of [configuration.access_token]. *)
Definition token_set (tok : option string) : bool :=
  match tok with
  | Some s => negb (s =? "")
  | None => false
  end.

(** ** The program *)

Definition POSITION_STAT_MAP : list (string * list string) :=
  [ ("QB", ["passing"; "rushing"; "receiving"; "fumbles"]);
    ("RB", ["rushing"; "receiving"; "fumbles"]);
    ("WR", ["receiving"; "rushing"; "fumbles"]);
    ("TE", ["receiving"; "rushing"; "fumbles"]);
    ("FB", ["rushing"; "receiving"; "fumbles"]);
    ("DB", ["defensive"; "interceptions"; "fumbles"]);
    ("CB", ["defensive"; "interceptions"; "fumbles"]);
    ("S", ["defensive"; "interceptions"; "fumbles"]);
    ("LB", ["defensive"; "interceptions"; "fumbles"]);
    ("DE", ["defensive"; "interceptions"; "fumbles"]);
    ("DT", ["defensive"; "interceptions"; "fumbles"]);
    ("DL", ["defensive"; "interceptions"; "fumbles"]);
    ("K", ["kicking"]);
    ("P", ["punting"]);
    ("LS", []);
    ("OL", []) ].

(** [POSITION_STAT_MAP.get(k, None)]. *)
Fixpoint lookup_position (k : string) (m : list (string * list string)) : option (list string) :=
  match m with
  | [] => None
  | (k', v) :: m' => if k' =? k then Some v else lookup_position k m'
  end.

Definition api_key_missing : string :=
  "API key not found. Please set the CFBD_API_KEY environment variable in a .env file or your system environment.".

Definition display_categories : list string := ["total"; "offense"; "defense"].

(** The fields of a player record that the merge leaves out. *)
Definition identifying_fields : list string :=
  ["player"; "team"; "conference"; "athlete_id"; "category"].

Definition not_in (x : string) (l : list string) : bool :=
  negb (existsb (String.eqb x) l).

(** The body of the loop over [player_stats.items()] in
    [get_player_stats_by_name]. *)
Definition merge_step (category : string) (combined_stats : dict) (item : string * value) : dict :=
  let '(stat_name, v) := item in
  if not_in stat_name identifying_fields
  then dict_set (category ++ "_" ++ stat_name) v combined_stats
  else combined_stats.

(** The loop over [player_stats.items()]. *)
Definition merge_stats (category : string) (player_stats combined_stats : dict) : dict :=
  fold_left (merge_step category) player_stats combined_stats.

(** The label under which [get_player_stats_by_name] prints a key of the
    combined mapping. *)
Definition display_label (stat_key : string) : string :=
  let display_key :=
    Py.replace "Fumbles " ""
      (Py.replace "Receiving " ""
         (Py.replace "Rushing " ""
            (Py.replace "Passing " ""
               (Py.title (Py.replace "_" " " stat_key))))) in
  if Py.contains "passing_" stat_key then "Passing " ++ display_key
  else if Py.contains "rushing_" stat_key then "Rushing " ++ display_key
  else if Py.contains "receiving_" stat_key then "Receiving " ++ display_key
  else if Py.contains "fumbles_" stat_key then "Fumbles " ++ display_key
  else display_key.

(** The human labels of the four categories that [display_label] knows. *)
Definition category_labels : list (string * string) :=
  [ ("passing", "Passing"); ("rushing", "Rushing");
    ("receiving", "Receiving"); ("fumbles", "Fumbles") ].

(** The field part of a key holds no category prefix of its own, neither as
    written nor once title-cased. *)
Definition plain_field (field : string) : bool :=
  forallb
    (fun '(category, label) =>
       negb (Py.contains (category ++ "_") field)
       && negb (Py.contains (label ++ " ") (Py.title (Py.replace "_" " " field))))
    category_labels.

Section Program.

Variable rt : runtime.

(** [str(v)], which is also what an f-string shows for [v]. *)
Definition py_str (v : value) : string :=
  match v with
  | VNone => "None"
  | VBool true => "True"
  | VBool false => "False"
  | VInt n => Py.str_of_int n
  | VFloat f => PyFloat.str f
  | VStr s => s
  | VList _ | VDict _ => repr_container rt v
  end.

Definition fetch_advanced_stats (team_name : string) (year : Z) : M (option dict) :=
  try_except
    (if negb (token_set (access_token rt)) then raise (ValueError api_key_missing)
     else
       print ("Fetching advanced stats for " ++ team_name ++ " in " ++ Py.str_of_int year ++ "...") ;;
       response <- remote (AdvancedSeasonStats year team_name)
                          (get_advanced_season_stats rt year team_name) ;;
       match response with
       | first :: _ => ret (Some first)
       | [] =>
           print ("No advanced stats found for " ++ team_name ++ " in " ++ Py.str_of_int year
                  ++ ". Please check the team name and year.") ;;
           ret None
       end)
    (fun e =>
       match e with
       | ApiException _ =>
           Some (print ("CFBD API Error for " ++ team_name ++ ": " ++ exn_str e) ;; ret None)
       | _ =>
           Some (print ("An unexpected error occurred for " ++ team_name ++ ": " ++ exn_str e) ;;
                 ret None)
       end).

(** One row of a comparison table. *)
Definition stat_row (stats_a_cat stats_b_cat : dict) (stat_name : string) : string :=
  let value_a := get stats_a_cat stat_name (VStr "N/A") in
  let value_b := get stats_b_cat stat_name (VStr "N/A") in
  Py.ljust (Py.title (Py.replace "_" " " stat_name)) 30
  ++ Py.ljust (py_str value_a) 20 ++ Py.ljust (py_str value_b) 20.

(** The body of the loop over [display_categories] in [compare_teams]. *)
Definition compare_category (team_a_name team_b_name : string) (stats_a stats_b : dict)
    (category_name : string) : M unit :=
  print (Py.nl ++ "--- " ++ Py.capitalize category_name ++ " ---") ;;
  let stats_a_cat := get stats_a category_name VNone in
  let stats_b_cat := get stats_b category_name VNone in
  if truthy stats_a_cat && truthy stats_b_cat
     && isinstance_dict stats_a_cat && isinstance_dict stats_b_cat
  then
    print (Py.ljust "Statistic" 30 ++ Py.ljust team_a_name 20 ++ Py.ljust team_b_name 20) ;;
    print (Py.repeat_char "-"%char 70) ;;
    for_each (Py.sorted (keys (as_dict stats_a_cat)))
      (fun stat_name => print (stat_row (as_dict stats_a_cat) (as_dict stats_b_cat) stat_name))
  else ret tt.

Definition compare_teams (team_a_name team_b_name : string) (year : Z) : M unit :=
  print ("--- Comparing Advanced Season Stats for " ++ team_a_name ++ " vs " ++ team_b_name
         ++ " (" ++ Py.str_of_int year ++ ") ---") ;;
  stats_a <- fetch_advanced_stats team_a_name year ;;
  stats_b <- fetch_advanced_stats team_b_name year ;;
  match stats_a, stats_b with
  | Some ((_ :: _) as stats_a), Some ((_ :: _) as stats_b) =>
      for_each display_categories (compare_category team_a_name team_b_name stats_a stats_b)
  | _, _ => ret tt
  end.

(** The loop over the roster in [get_player_position]; running off the end
    of the roster leads to the final [return None]. *)
Fixpoint scan_roster (player_name : string) (roster : list RosterPlayer.t) : M (option string) :=
  match roster with
  | [] => ret None
  | player :: rest =>
      n <- attr_lower (RosterPlayer.name player) ;;
      if n =? Py.lower player_name then ret (RosterPlayer.position player)
      else scan_roster player_name rest
  end.

Definition get_player_position (player_name team_name : string) (year : Z) : M (option string) :=
  try_except
    (if negb (token_set (access_token rt)) then raise (ValueError api_key_missing)
     else
       roster <- remote (Roster team_name year) (get_roster rt team_name year) ;;
       scan_roster player_name roster)
    (fun e =>
       match e with
       | ApiException _ =>
           Some (print ("CFBD API Error while fetching roster for " ++ team_name ++ ": "
                        ++ exn_str e) ;;
                 ret None)
       | _ =>
           Some (print ("An unexpected error occurred while fetching roster: " ++ exn_str e) ;;
                 ret None)
       end).

(** [next((p.to_dict() for p in response if p.player.lower() == player_name.lower()), None)]. *)
Fixpoint next_match (player_name : string) (response : list PlayerStat.t) : M (option dict) :=
  match response with
  | [] => ret None
  | p :: rest =>
      n <- attr_lower (PlayerStat.player p) ;;
      if n =? Py.lower player_name then ret (Some (PlayerStat.to_dict p))
      else next_match player_name rest
  end.

(** The loop over [categories] in [get_player_stats_by_name], from the
    combined mapping built so far to the final one. *)
Fixpoint fetch_categories (player_name team_name : string) (year : Z)
    (categories : list string) (combined_stats : dict) : M dict :=
  match categories with
  | [] => ret combined_stats
  | category :: rest =>
      print ("Fetching " ++ category ++ " stats...") ;;
      response <- remote (PlayerSeasonStats year team_name category)
                         (get_player_season_stats rt year team_name category) ;;
      combined_stats <-
        (if nonempty response then
           player_stats <- next_match player_name response ;;
           match player_stats with
           | Some ((_ :: _) as player_stats) => ret (merge_stats category player_stats combined_stats)
           | _ => ret combined_stats
           end
         else ret combined_stats) ;;
      fetch_categories player_name team_name year rest combined_stats
  end.

(** The line printed for one key of the combined mapping. *)
Definition stat_line (combined_stats : dict) (stat_key : string) : string :=
  Py.ljust (display_label stat_key) 35 ++ ": " ++ py_str (get combined_stats stat_key VNone).

(** What [get_player_stats_by_name] prints once the categories are fetched. *)
Definition show_player_stats (player_name team_name : string) (year : Z)
    (position : string) (combined_stats : dict) : M unit :=
  if nonempty combined_stats then
    print (Py.nl ++ "--- Player Stats for " ++ player_name ++ " (" ++ position ++ ") ---") ;;
    for_each (Py.sorted (keys combined_stats))
      (fun stat_key => print (stat_line combined_stats stat_key))
  else
    print ("No stats found for " ++ player_name ++ " on team '" ++ team_name
           ++ "' in " ++ Py.str_of_int year ++ ".").

Definition get_player_stats_by_name (player_name team_name : string) (year : Z) : M unit :=
  print ("--- Searching for stats for " ++ player_name ++ " on " ++ team_name
         ++ " (" ++ Py.str_of_int year ++ ") ---") ;;
  position <- get_player_position player_name team_name year ;;
  match position with
  | None | Some EmptyString =>
      print ("Could not find player '" ++ player_name ++ "' or team '" ++ team_name
             ++ "' in the roster for " ++ Py.str_of_int year
             ++ ". Please check the names and try again.")
  | Some position =>
      match lookup_position (Py.upper position) POSITION_STAT_MAP with
      | None | Some [] =>
          print ("Player position '" ++ position
                 ++ "' is not supported for detailed stats fetching. Supported positions are "
                 ++ Py.repr_str_list (map fst POSITION_STAT_MAP) ++ ".")
      | Some categories =>
          try_except
            (combined_stats <- fetch_categories player_name team_name year categories [] ;;
             show_player_stats player_name team_name year position combined_stats)
            (fun e =>
               match e with
               | ApiException _ => Some (print ("CFBD API Error: " ++ exn_str e))
               | _ => Some (print ("An unexpected error occurred: " ++ exn_str e))
               end)
      end
  end.

(** ** The interactive menu *)

(** [input(prompt)] reading from the lines still waiting on standard input;
    at the end of the input it raises [EOFError]. *)
Definition input (prompt : string) (stdin : list string) : M (string * list string) :=
  match stdin with
  | [] => ([Prompt prompt], inl (EOFError "EOF when reading a line"))
  | line :: rest => ([Prompt prompt], inr (line, rest))
  end.

(** [int(s)]; the text of the [ValueError] is never shown. *)
Definition int (s : string) : M Z :=
  match Py.int_of_str s with
  | Some n => ret n
  | None => raise (ValueError ("invalid literal for int() with base 10: '" ++ s ++ "'"))
  end.

Definition invalid_year : string :=
  "Invalid year. Please enter a valid integer for the year.".

Definition except_ValueError (e : exn) : option (M unit) :=
  match e with
  | ValueError _ => Some (print invalid_year)
  | _ => None
  end.

(** One round of the [while True] loop: [true] to go round again, [false]
    after [break]; with it, the lines left on standard input. *)
Definition menu (stdin : list string) : M (bool * list string) :=
  print (Py.nl ++ "What would you like to do?") ;;
  print "1. Compare two teams' advanced stats" ;;
  print "2. Look up a player's season stats" ;;
  print "3. Exit" ;;
  '(choice, stdin) <- input "Enter your choice (1, 2, or 3): " stdin ;;
  if choice =? "1" then
    '(team_a_name, stdin) <- input "Enter the name of the first team: " stdin ;;
    '(team_b_name, stdin) <- input "Enter the name of the second team: " stdin ;;
    '(year_input, stdin) <- input "Enter the year: " stdin ;;
    try_except
      (year <- int year_input ;;
       compare_teams team_a_name team_b_name year)
      except_ValueError ;;
    ret (true, stdin)
  else if choice =? "2" then
    '(player_name, stdin) <- input "Enter the player's full name (e.g., 'Joe Burrow'): " stdin ;;
    '(team_name, stdin) <- input "Enter the player's team: " stdin ;;
    '(year_input, stdin) <- input "Enter the year: " stdin ;;
    try_except
      (year <- int year_input ;;
       get_player_stats_by_name player_name team_name year)
      except_ValueError ;;
    ret (true, stdin)
  else if choice =? "3" then
    print "Exiting. Goodbye!" ;;
    ret (false, stdin)
  else
    print "Invalid choice. Please enter 1, 2, or 3." ;;
    ret (true, stdin).

(** How a run of the loop ends when no exception does it. *)
Inductive loop_end :=
| Exited (stdin : list string)
| OutOfFuel.

(** The [while True] loop, for at most [fuel] rounds. *)
Fixpoint session (fuel : nat) (stdin : list string) : M loop_end :=
  match fuel with
  | O => ret OutOfFuel
  | S fuel' =>
      '(again, stdin) <- menu stdin ;;
      if again : bool then session fuel' stdin else ret (Exited stdin)
  end.

Definition main (fuel : nat) (stdin : list string) : M loop_end :=
  print "Welcome to the College Football Stats Comparator and Player Lookup!" ;;
  session fuel stdin.

End Program.

(** The events of a computation and its outcome. *)
Definition events {A} (m : M A) : list event := fst m.
Definition outcome {A} (m : M A) : exn + A := snd m.

(** The requests a computation sent, in order. *)
Definition requests (t : list event) : list request :=
  flat_map (fun e => match e with Call r => [r] | _ => [] end) t.

(** The lines a computation printed, in order. *)
Definition printed (t : list event) : list string :=
  flat_map (fun e => match e with Print l => [l] | _ => [] end) t.

(** ** Vocabulary of the specification *)

(** An entry carries the name [player_name], whatever the case of its
    letters. *)
Definition same_name (player_name : string) (n : option string) : bool :=
  match n with
  | Some n => Py.lower n =? Py.lower player_name
  | None => false
  end.

(** An entry that has a name, which is not [player_name]. *)
Definition other_name (player_name : string) (n : option string) : bool :=
  match n with
  | Some n => negb (Py.lower n =? Py.lower player_name)
  | None => false
  end.

Definition has_name (n : option string) : bool :=
  match n with
  | Some _ => true
  | None => false
  end.

(** The line [get_player_position] prints for a fault. *)
Definition roster_fault_report (team_name : string) (e : exn) : string :=
  match e with
  | ApiException m => "CFBD API Error while fetching roster for " ++ team_name ++ ": " ++ m
  | _ => "An unexpected error occurred while fetching roster: " ++ exn_str e
  end.

(** The line [fetch_advanced_stats] prints for a fault. *)
Definition stats_fault_report (team_name : string) (e : exn) : string :=
  match e with
  | ApiException m => "CFBD API Error for " ++ team_name ++ ": " ++ m
  | _ => "An unexpected error occurred for " ++ team_name ++ ": " ++ exn_str e
  end.

(** The line [get_player_stats_by_name] prints for a fault. *)
Definition player_fault_report (e : exn) : string :=
  match e with
  | ApiException m => "CFBD API Error: " ++ m
  | _ => "An unexpected error occurred: " ++ exn_str e
  end.

(** The line that reports an unsupported position. *)
Definition unsupported_position_report (position : string) : string :=
  "Player position '" ++ position
  ++ "' is not supported for detailed stats fetching. Supported positions are "
  ++ "['QB', 'RB', 'WR', 'TE', 'FB', 'DB', 'CB', 'S', 'LB', 'DE', 'DT', 'DL', 'K', 'P', 'LS', 'OL'].".

(** The first line of a player lookup. *)
Definition searching_line (player_name team_name : string) (year : Z) : string :=
  "--- Searching for stats for " ++ player_name ++ " on " ++ team_name
  ++ " (" ++ Py.str_of_int year ++ ") ---".

(** The first record of a response that carries the name [player_name]. *)
Definition first_record (player_name : string) (response : list PlayerStat.t)
    : option PlayerStat.t :=
  find (fun p => same_name player_name (PlayerStat.player p)) response.

(** What one category adds to the combined mapping: the fields of the first
    record of its response that carries the player's name. *)
Definition contribution (rt : runtime) (player_name team_name : string) (year : Z)
    (combined_stats : dict) (category : string) : dict :=
  match get_player_season_stats rt year team_name category with
  | inr response =>
      match first_record player_name response with
      | Some p => merge_stats category (PlayerStat.to_dict p) combined_stats
      | None => combined_stats
      end
  | inl _ => combined_stats
  end.

(** The request of a category answers with records that all have a name. *)
Definition answers (rt : runtime) (team_name : string) (year : Z) (category : string) : bool :=
  match get_player_season_stats rt year team_name category with
  | inr response => forallb (fun p => has_name (PlayerStat.player p)) response
  | inl _ => false
  end.

(** What the loop over the categories prints and requests when nothing
    fails. *)
Definition fetch_events (team_name : string) (year : Z) (categories : list string) : list event :=
  flat_map (fun category =>
              [Print ("Fetching " ++ category ++ " stats...");
               Call (PlayerSeasonStats year team_name category)]) categories.

(** A value that is a mapping with at least one key. *)
Definition nonempty_dict (v : value) : bool :=
  match v with
  | VDict (_ :: _) => true
  | _ => false
  end.

(** The lines that frame a section of the comparison. *)
Definition section_header (category_name : string) : string :=
  Py.nl ++ "--- " ++ Py.capitalize category_name ++ " ---".

Definition table_header (team_a_name team_b_name : string) : string :=
  Py.ljust "Statistic" 30 ++ Py.ljust team_a_name 20 ++ Py.ljust team_b_name 20.

Definition table_rule : string := Py.repeat_char "-"%char 70.

(** Ascending order of strings. *)
Definition str_le (x y : string) : Prop := String.leb x y = true.

(** The lines and prompts of one round of the menu. *)
Definition menu_lines : list event :=
  [ Print (Py.nl ++ "What would you like to do?");
    Print "1. Compare two teams' advanced stats";
    Print "2. Look up a player's season stats";
    Print "3. Exit";
    Prompt "Enter your choice (1, 2, or 3): " ].

Definition compare_prompts : list event :=
  [ Prompt "Enter the name of the first team: ";
    Prompt "Enter the name of the second team: ";
    Prompt "Enter the year: " ].

Definition lookup_prompts : list event :=
  [ Prompt "Enter the player's full name (e.g., 'Joe Burrow'): ";
    Prompt "Enter the player's team: ";
    Prompt "Enter the year: " ].

(** The lines around a request for advanced stats. *)
Definition fetching_line (team_name : string) (year : Z) : string :=
  "Fetching advanced stats for " ++ team_name ++ " in " ++ Py.str_of_int year ++ "...".

Definition comparing_line (team_a_name team_b_name : string) (year : Z) : string :=
  "--- Comparing Advanced Season Stats for " ++ team_a_name ++ " vs " ++ team_b_name
  ++ " (" ++ Py.str_of_int year ++ ") ---".

(** ** Sample data *)

Module Sample.

Definition joe : PlayerStat.t :=
  {| PlayerStat.player := Some "Joe Burrow";
     PlayerStat.to_dict :=
       [ ("player", VStr "Joe Burrow"); ("team", VStr "LSU"); ("conference", VStr "SEC");
         ("athlete_id", VInt 3915511); ("category", VStr "passing");
         ("completions", VInt 402); ("yards", VInt 5671) ] |}.

Definition other : PlayerStat.t :=
  {| PlayerStat.player := Some "Myles Brennan";
     PlayerStat.to_dict := [ ("player", VStr "Myles Brennan"); ("completions", VInt 24) ] |}.

Definition roster : list RosterPlayer.t :=
  [ {| RosterPlayer.name := Some "Myles Brennan"; RosterPlayer.position := Some "QB" |};
    {| RosterPlayer.name := Some "Joe Burrow"; RosterPlayer.position := Some "QB" |};
    {| RosterPlayer.name := Some "Cade York"; RosterPlayer.position := Some "PK" |};
    {| RosterPlayer.name := Some "Blake Ferguson"; RosterPlayer.position := Some "LS" |} ].

Definition team_a : dict :=
  [ ("team", VStr "LSU"); ("total", VDict [ ("wins", VInt 10) ]);
    ("defense", VDict [ ("havoc", VInt 1) ]) ].

Definition team_c : dict :=
  [ ("total", VDict [ ("wins", VInt 10); ("ties", VInt 0) ]); ("offense", VDict []);
    ("defense", VInt 3) ].

Definition team_b : dict :=
  [ ("team", VStr "Clemson"); ("total", VDict [ ("wins", VInt 10); ("losses", VInt 2) ]) ].

(** A collaborator that answers every request. *)
Definition online : runtime :=
  {| access_token := Some "secret";
     get_advanced_season_stats := fun _ team =>
       inr (if team =? "LSU" then [team_a] else if team =? "Clemson" then [team_b] else []);
     get_roster := fun _ _ => inr roster;
     get_player_season_stats := fun _ _ category =>
       inr (if category =? "passing" then [other; joe] else []);
     repr_container := fun _ => "..." |}.

(** A collaborator whose every answer is an API error. *)
Definition offline : runtime :=
  {| access_token := Some "secret";
     get_advanced_season_stats := fun _ _ => inl (ApiException "(503) Service Unavailable");
     get_roster := fun _ _ => inl (ApiException "(503) Service Unavailable");
     get_player_season_stats := fun _ _ _ => inl (ApiException "(503) Service Unavailable");
     repr_container := fun _ => "..." |}.

(** A collaborator that serves the roster but fails on player stats. *)
Definition stats_down : runtime :=
  {| access_token := Some "secret";
     get_advanced_season_stats := fun _ _ => inl (ApiException "(503) Service Unavailable");
     get_roster := fun _ _ => inr roster;
     get_player_season_stats := fun _ _ _ => inl (ApiException "(503) Service Unavailable");
     repr_container := fun _ => "..." |}.

(** No credential in the environment. *)
Definition no_token : runtime :=
  {| access_token := None;
     get_advanced_season_stats := fun _ _ => inr [team_a];
     get_roster := fun _ _ => inr roster;
     get_player_season_stats := fun _ _ _ => inr [joe];
     repr_container := fun _ => "..." |}.

(** A roster whose second entry has no name. *)
Definition nameless : runtime :=
  {| access_token := Some "secret";
     get_advanced_season_stats := fun _ _ => inr [];
     get_roster := fun _ _ =>
       inr [ {| RosterPlayer.name := Some "Myles Brennan"; RosterPlayer.position := Some "QB" |};
             {| RosterPlayer.name := None; RosterPlayer.position := Some "WR" |};
             {| RosterPlayer.name := Some "Joe Burrow"; RosterPlayer.position := Some "QB" |} ];
     get_player_season_stats := fun _ _ _ => inr [];
     repr_container := fun _ => "..." |}.

End Sample.

(** ** Further vocabulary *)

(** The names of all the categories of [POSITION_STAT_MAP]. *)
Definition category_names : list string :=
  [ "passing"; "rushing"; "receiving"; "fumbles";
    "defensive"; "interceptions"; "kicking"; "punting" ].

(** The categories for which [display_label] has no label of its own, with
    their names title-cased. *)
Definition unlabelled_categories : list (string * string) :=
  [ ("defensive", "Defensive"); ("interceptions", "Interceptions");
    ("kicking", "Kicking"); ("punting", "Punting") ].

(** An answer to an advanced-stats request that the comparator can use: a
    first record whose mapping is not empty. *)
Definition usable (answer : exn + list dict) : bool :=
  match answer with
  | inr ((_ :: _) :: _) => true
  | _ => false
  end.

(** The first record of an answer. *)
Definition first_stats (answer : exn + list dict) : dict :=
  match answer with
  | inr (first :: _) => first
  | _ => []
  end.

(** The position the resolver gave does not count as one. *)
Definition no_position (position : option string) : bool :=
  match position with
  | None | Some EmptyString => true
  | Some _ => false
  end.

(** Lines of the player lookup. *)
Definition could_not_find_line (player_name team_name : string) (year : Z) : string :=
  "Could not find player '" ++ player_name ++ "' or team '" ++ team_name
  ++ "' in the roster for " ++ Py.str_of_int year
  ++ ". Please check the names and try again.".

Definition no_stats_line (player_name team_name : string) (year : Z) : string :=
  "No stats found for " ++ player_name ++ " on team '" ++ team_name
  ++ "' in " ++ Py.str_of_int year ++ ".".

Definition player_header (player_name position : string) : string :=
  Py.nl ++ "--- Player Stats for " ++ player_name ++ " (" ++ position ++ ") ---".

(** A line typed at the menu that is none of the three choices. *)
Definition invalid_choice (choice : string) : bool :=
  negb (choice =? "1") && negb (choice =? "2") && negb (choice =? "3").

(** What a round of the menu shows for such a line, and for the exit. *)
Definition invalid_choice_round : list event :=
  (menu_lines ++ [Print "Invalid choice. Please enter 1, 2, or 3."])%list.

Definition exit_round : list event :=
  (menu_lines ++ [Print "Exiting. Goodbye!"])%list.

(** The record of a category's answer that the lookup of [player_name]
    merges, if any. *)
Definition matched_record (rt : runtime) (player_name team_name : string) (year : Z)
    (category : string) : option PlayerStat.t :=
  match get_player_season_stats rt year team_name category with
  | inr response => first_record player_name response
  | inl _ => None
  end.

(** More sample data. *)
Module Cases.

Definition tackles : PlayerStat.t :=
  {| PlayerStat.player := Some "Grant Delpit";
     PlayerStat.to_dict :=
       [ ("player", VStr "Grant Delpit"); ("solo", VInt 38); ("total", VInt 65) ] |}.

Definition picks : PlayerStat.t :=
  {| PlayerStat.player := Some "grant delpit";
     PlayerStat.to_dict := [ ("team", VStr "LSU"); ("total", VInt 2) ] |}.

(** A safety with records in two of his three categories. *)
Definition defense : runtime :=
  {| access_token := Some "secret";
     get_advanced_season_stats := fun _ _ => inr [Sample.team_a; Sample.team_c];
     get_roster := fun _ _ =>
       inr [ {| RosterPlayer.name := Some "Grant Delpit"; RosterPlayer.position := Some "s" |};
             {| RosterPlayer.name := Some "No Position"; RosterPlayer.position := None |} ];
     get_player_season_stats := fun _ _ category =>
       inr (if category =? "defensive" then [Sample.joe; tackles]
            else if category =? "interceptions" then [picks]
            else []);
     repr_container := fun _ => "..." |}.


(** The separator [0x1F] before a year. *)
Definition separator_2019 : string := String (ascii_of_N 31) "2019".

End Cases.

(** * Properties *)

(** ** Strings *)

Section StringFacts.

Lemma replace_from_absent old new s :
  Py.contains old s = false -> Py.replace_from old new 0 s = s.
Proof.
  induction s as [|c s IH]; intros H.
  - reflexivity.
  - cbn [Py.contains] in H. apply orb_false_iff in H as [Hhd Htl].
    cbn [Py.replace_from]. rewrite Hhd, (IH Htl). reflexivity.
Qed.

Lemma replace_absent old new s :
  Py.contains old s = false -> Py.replace old new s = s.
Proof.
  destruct old as [|a old].
  - destruct s; discriminate.
  - apply replace_from_absent.
Qed.

End StringFacts.

Lemma display_label_general category label field :
  In (category, label) category_labels ->
  plain_field field = true ->
  display_label (category ++ "_" ++ field)
  = label ++ " " ++ Py.title (Py.replace "_" " " field).
Proof.
  intros Hin Hplain.
  unfold plain_field, category_labels, Py.title, Py.replace in Hplain.
  cbn [forallb append] in Hplain.
  apply andb_true_iff in Hplain as [HP Hplain]. apply andb_true_iff in HP as [P1 P2].
  apply andb_true_iff in Hplain as [HR Hplain]. apply andb_true_iff in HR as [R1 R2].
  apply andb_true_iff in Hplain as [HV Hplain]. apply andb_true_iff in HV as [V1 V2].
  apply andb_true_iff in Hplain as [HF _]. apply andb_true_iff in HF as [F1 F2].
  apply negb_true_iff in P1, P2, R1, R2, V1, V2, F1, F2.
  cbn in Hin.
  destruct Hin as [E|[E|[E|[E|[]]]]]; inversion E; subst; clear E.
  all: unfold display_label, Py.title, Py.replace; cbn.
  all: rewrite ?P1, ?R1, ?V1, ?F1.
  all: rewrite (replace_from_absent _ _ _ P2), (replace_from_absent _ _ _ R2),
         (replace_from_absent _ _ _ V2), (replace_from_absent _ _ _ F2).
  all: reflexivity.
Qed.

(** Key [passing_completions]. *)
Example display_label_passing_completions :
  display_label "passing_completions" = "Passing Completions".
Proof. reflexivity. Qed.

(** C4 (as written, refuted): a key that begins with [rushing_] and goes on
    with another category prefix is labelled with the wrong category, and
    loses the word from its remainder. *)
Lemma display_label_nested_prefix :
  Py.startswith "rushing_" "rushing_passing_yards" = true /\
  display_label "rushing_passing_yards" = "Passing Yards" /\
  display_label "rushing_passing_yards"
  <> "Rushing " ++ Py.title (Py.replace "_" " " "passing_yards").
Proof. repeat split; discriminate. Qed.

(** C4 (amended): [display_label "passing_completions"] is
    ["Passing Completions"]; and for a key [category_field] whose category is
    passing, rushing, receiving or fumbles and whose field part holds no
    category prefix of its own (no [passing_], [rushing_], [receiving_],
    [fumbles_] in it, and none of ["Passing "], ["Rushing "], ["Receiving "],
    ["Fumbles "] in its title-cased form), the label is the category's human
    label, a space, and the field part with underscores turned into spaces,
    title-cased. *)
Theorem display_label_category_remainder :
  display_label "passing_completions" = "Passing Completions" /\
  forall category label field,
    In (category, label) category_labels ->
    plain_field field = true ->
    display_label (category ++ "_" ++ field)
    = label ++ " " ++ Py.title (Py.replace "_" " " field).
Proof.
  split.
  - reflexivity.
  - intros. now apply display_label_general.
Qed.

Lemma display_label_category_remainder_witness :
  In ("fumbles", "Fumbles") category_labels /\
  plain_field "lost_in_rushing" = true /\
  display_label "fumbles_lost_in_rushing" = "Fumbles Lost In Rushing".
Proof.
  split; [cbn; tauto|]. split; [reflexivity|].
  exact (proj2 display_label_category_remainder "fumbles" "Fumbles" "lost_in_rushing"
           (or_intror (or_intror (or_intror (or_introl eq_refl)))) eq_refl).
Defined.

(** ** Dictionaries *)

Section DictFacts.

Lemma dict_get_set_same k v d : dict_get k (dict_set k v d) = Some v.
Proof.
  induction d as [|[k' v'] d IH]; cbn.
  - now rewrite String.eqb_refl.
  - destruct (k' =? k) eqn:E; cbn.
    + now rewrite String.eqb_refl.
    + now rewrite E.
Qed.

Lemma dict_get_set_other k k' v d :
  k <> k' -> dict_get k' (dict_set k v d) = dict_get k' d.
Proof.
  intros Hne. induction d as [|[k0 v0] d IH]; cbn.
  - apply String.eqb_neq in Hne. now rewrite Hne.
  - destruct (k0 =? k) eqn:E; cbn.
    + apply String.eqb_eq in E. subst k0.
      apply String.eqb_neq in Hne. now rewrite Hne.
    + now rewrite IH.
Qed.

Lemma keys_dict_set k v d x :
  In x (keys (dict_set k v d)) <-> x = k \/ In x (keys d).
Proof.
  induction d as [|[k0 v0] d IH]; cbn.
  - intuition.
  - destruct (k0 =? k) eqn:E; cbn.
    + apply String.eqb_eq in E. subst k0. intuition.
    + rewrite IH. intuition.
Qed.

Lemma dict_get_in_keys k v d : dict_get k d = Some v -> In k (keys d).
Proof.
  induction d as [|[k0 v0] d IH]; cbn; [discriminate|].
  destruct (k0 =? k) eqn:E.
  - apply String.eqb_eq in E. now left.
  - intros H. right. now apply IH.
Qed.

Lemma dict_get_not_in_keys k d : ~ In k (keys d) -> dict_get k d = None.
Proof.
  induction d as [|[k0 v0] d IH]; cbn; [reflexivity|].
  intros H. destruct (k0 =? k) eqn:E.
  - apply String.eqb_eq in E. tauto.
  - apply IH. tauto.
Qed.

Lemma not_in_spec x l : not_in x l = true <-> ~ In x l.
Proof.
  unfold not_in. rewrite negb_true_iff. split.
  - intros H Hin. assert (existsb (String.eqb x) l = true) as E.
    { apply existsb_exists. exists x. split; [exact Hin | apply String.eqb_refl]. }
    congruence.
  - intros H. destruct (existsb (String.eqb x) l) eqn:E; [|reflexivity].
    apply existsb_exists in E as (y & Hy & Exy). apply String.eqb_eq in Exy. now subst.
Qed.

Lemma append_inj_l (p a b : string) : p ++ a = p ++ b -> a = b.
Proof.
  induction p as [|c p IH]; cbn; intros H; [exact H|].
  inversion H. auto.
Qed.

(** The key under which a field of a category is merged. *)
Lemma prefixed_key_inj category a b :
  category ++ "_" ++ a = category ++ "_" ++ b -> a = b.
Proof.
  intros H. apply append_inj_l in H. now inversion H.
Qed.

Lemma merge_stats_cons category k v player_stats combined :
  merge_stats category ((k, v) :: player_stats) combined
  = merge_stats category player_stats (merge_step category combined (k, v)).
Proof. reflexivity. Qed.

(** Keys that no merged field maps to keep their binding. *)
Lemma merge_stats_untouched category player_stats : forall combined key,
  (forall k, In k (keys player_stats) -> ~ In k identifying_fields ->
             key <> category ++ "_" ++ k) ->
  dict_get key (merge_stats category player_stats combined) = dict_get key combined.
Proof.
  induction player_stats as [|[k v] ps IH]; intros combined key H.
  - reflexivity.
  - rewrite merge_stats_cons, IH.
    + unfold merge_step. destruct (not_in k identifying_fields) eqn:E; [|reflexivity].
      apply dict_get_set_other. intros Heq. apply (H k); [now left| |now symmetry].
      now apply not_in_spec.
    + intros k' Hin. apply H. now right.
Qed.

Lemma merge_stats_copies category player_stats : forall combined k v,
  NoDup (keys player_stats) ->
  dict_get k player_stats = Some v ->
  ~ In k identifying_fields ->
  dict_get (category ++ "_" ++ k) (merge_stats category player_stats combined) = Some v.
Proof.
  induction player_stats as [|[k0 v0] ps IH]; intros combined k v Hnd Hget Hk.
  - discriminate.
  - cbn in Hnd. inversion Hnd as [|? ? Hnotin Hnd']; subst.
    rewrite merge_stats_cons. cbn in Hget.
    destruct (k0 =? k) eqn:E.
    + apply String.eqb_eq in E. subst k0. inversion Hget; subst v0.
      rewrite merge_stats_untouched.
      * unfold merge_step. apply not_in_spec in Hk. rewrite Hk. apply dict_get_set_same.
      * intros k' Hin _ Heq. apply prefixed_key_inj in Heq. now subst.
    + now apply IH.
Qed.

Lemma merge_stats_keys category player_stats : forall combined key,
  In key (keys (merge_stats category player_stats combined)) <->
  In key (keys combined) \/
  exists k, In k (keys player_stats) /\ ~ In k identifying_fields /\
            key = category ++ "_" ++ k.
Proof.
  induction player_stats as [|[k0 v0] ps IH]; intros combined key.
  - cbn. split; [auto|]. intros [H|(k & [] & _)]. exact H.
  - rewrite merge_stats_cons, IH. unfold merge_step. cbn [keys map fst In].
    destruct (not_in k0 identifying_fields) eqn:E.
    + rewrite keys_dict_set. apply not_in_spec in E. split.
      * intros [[->|H]|(k & Hin & Hk & ->)].
        -- right. exists k0. cbn. auto.
        -- now left.
        -- right. exists k. cbn. auto.
      * intros [H|(k & [->|Hin] & Hk & ->)].
        -- left. now right.
        -- left. now left.
        -- right. exists k. auto.
    + assert (In k0 identifying_fields) as Hid.
      { destruct (in_dec string_dec k0 identifying_fields) as [H|H]; [exact H|].
        apply not_in_spec in H. congruence. }
      split.
      * intros [H|(k & Hin & Hk & ->)]; [now left|].
        right. exists k. cbn. auto.
      * intros [H|(k & [->|Hin] & Hk & ->)]; [now left|tauto|].
        right. exists k. auto.
Qed.

End DictFacts.

(** ** Computations *)

Section MonadFacts.

Lemma bind_inr {A B} (t : list event) (a : A) (f : A -> M B) :
  bind (t, inr a) f = ((t ++ events (f a))%list, outcome (f a)).
Proof. unfold bind. now destruct (f a). Qed.

Lemma bind_inl {A B} (t : list event) (e : exn) (f : A -> M B) :
  bind (t, inl e) f = (t, inl e).
Proof. reflexivity. Qed.

Lemma bind_print {B} (line : string) (f : unit -> M B) :
  bind (print line) f = (Print line :: events (f tt), outcome (f tt)).
Proof. unfold print. now rewrite bind_inr. Qed.

Lemma bind_ret {A B} (a : A) (f : A -> M B) : bind (ret a) f = f a.
Proof. unfold ret. rewrite bind_inr. now destruct (f a). Qed.

Lemma bind_raise {A B} (e : exn) (f : A -> M B) : bind (raise e) f = raise e.
Proof. reflexivity. Qed.

Lemma bind_remote {A B} (r : request) (answer : exn + A) (f : A -> M B) :
  bind (remote r answer) f =
  match answer with
  | inl e => ([Call r], inl e)
  | inr a => (Call r :: events (f a), outcome (f a))
  end.
Proof. unfold remote. destruct answer; [reflexivity | now rewrite bind_inr]. Qed.

Lemma pair_events_outcome {A} (m : M A) : m = (events m, outcome m).
Proof. now destruct m. Qed.

End MonadFacts.

(** ** The position resolver *)

Section Resolver.

Variable rt : runtime.

Lemma scan_roster_silent player_name roster :
  events (scan_roster player_name roster) = [].
Proof.
  induction roster as [|p roster IH]; [reflexivity|].
  cbn [scan_roster]. destruct (RosterPlayer.name p) as [n|]; [|reflexivity].
  cbn [attr_lower]. rewrite bind_ret.
  destruct (Py.lower n =? Py.lower player_name); [reflexivity | exact IH].
Qed.

(** The scan goes past the entries that have another name. *)
Lemma scan_roster_skip player_name before rest :
  forallb (fun q => other_name player_name (RosterPlayer.name q)) before = true ->
  scan_roster player_name (before ++ rest) = scan_roster player_name rest.
Proof.
  induction before as [|q before IH]; [reflexivity|].
  cbn [forallb]. intros H. apply andb_true_iff in H as [Hother Hbefore].
  cbn [app scan_roster]. destruct (RosterPlayer.name q) as [n|]; [|discriminate].
  cbn [attr_lower other_name] in *. apply negb_true_iff in Hother.
  rewrite bind_ret, Hother. now apply IH.
Qed.

Lemma scan_roster_match player_name p after :
  same_name player_name (RosterPlayer.name p) = true ->
  scan_roster player_name (p :: after) = ret (RosterPlayer.position p).
Proof.
  intros H. cbn [scan_roster]. destruct (RosterPlayer.name p) as [n|]; [|discriminate].
  cbn [attr_lower same_name] in *. now rewrite bind_ret, H.
Qed.

Lemma scan_roster_nameless player_name p after :
  RosterPlayer.name p = None ->
  exists e, scan_roster player_name (p :: after) = raise e.
Proof.
  intros H. cbn [scan_roster]. rewrite H. cbn [attr_lower]. eexists. reflexivity.
Qed.

Lemma get_player_position_unfold player_name team_name year :
  get_player_position rt player_name team_name year =
  if token_set (access_token rt) then
    match get_roster rt team_name year with
    | inl e => ([Call (Roster team_name year); Print (roster_fault_report team_name e)], inr None)
    | inr roster =>
        match outcome (scan_roster player_name roster) with
        | inl e => ([Call (Roster team_name year); Print (roster_fault_report team_name e)],
                    inr None)
        | inr r => ([Call (Roster team_name year)], inr r)
        end
    end
  else ([Print (roster_fault_report team_name (ValueError api_key_missing))], inr None).
Proof.
  unfold get_player_position.
  destruct (token_set (access_token rt)); cbn [negb].
  - rewrite bind_remote. destruct (get_roster rt team_name year) as [e|roster].
    + destruct e; reflexivity.
    + rewrite scan_roster_silent.
      destruct (outcome (scan_roster player_name roster)) as [e|r]; [|reflexivity].
      destruct e; reflexivity.
  - reflexivity.
Qed.

(** A resolved position comes from one roster request, with no fault. *)
Lemma get_player_position_resolved player_name team_name year pos :
  outcome (get_player_position rt player_name team_name year) = inr (Some pos) ->
  get_player_position rt player_name team_name year
  = ([Call (Roster team_name year)], inr (Some pos)).
Proof.
  rewrite get_player_position_unfold.
  destruct (token_set (access_token rt)); [|discriminate].
  destruct (get_roster rt team_name year) as [e|roster]; [discriminate|].
  destruct (outcome (scan_roster player_name roster)) as [e|r]; [discriminate|].
  cbn. congruence.
Qed.

Lemma get_player_position_returns player_name team_name year :
  exists r, outcome (get_player_position rt player_name team_name year) = inr r.
Proof.
  rewrite get_player_position_unfold.
  destruct (token_set (access_token rt)); [|eexists; reflexivity].
  destruct (get_roster rt team_name year) as [e|roster]; [eexists; reflexivity|].
  destruct (outcome (scan_roster player_name roster)); eexists; reflexivity.
Qed.

(** C8: [get_player_position] compares the lower-cased player name with the
    lower-cased name of each roster entry, in the order of the roster, and
    returns the position of the first entry that matches; it returns [None]
    when no entry matches, and also on every fault (no credential, a failing
    roster request, an entry without a name met before any match), which it
    reports in a printed line; it never raises. *)
Theorem get_player_position_first_match player_name team_name year :
  let run := get_player_position rt player_name team_name year in
  (exists r, outcome run = inr r) /\
  (forall before p after,
     token_set (access_token rt) = true ->
     get_roster rt team_name year = inr (before ++ p :: after)%list ->
     forallb (fun q => other_name player_name (RosterPlayer.name q)) before = true ->
     same_name player_name (RosterPlayer.name p) = true ->
     run = ([Call (Roster team_name year)], inr (RosterPlayer.position p))) /\
  (forall roster,
     token_set (access_token rt) = true ->
     get_roster rt team_name year = inr roster ->
     forallb (fun q => other_name player_name (RosterPlayer.name q)) roster = true ->
     run = ([Call (Roster team_name year)], inr None)) /\
  (token_set (access_token rt) = false ->
     run = ([Print (roster_fault_report team_name (ValueError api_key_missing))], inr None)) /\
  (forall e,
     token_set (access_token rt) = true ->
     get_roster rt team_name year = inl e ->
     run = ([Call (Roster team_name year); Print (roster_fault_report team_name e)],
            inr None)) /\
  (forall before p after,
     token_set (access_token rt) = true ->
     get_roster rt team_name year = inr (before ++ p :: after)%list ->
     forallb (fun q => other_name player_name (RosterPlayer.name q)) before = true ->
     RosterPlayer.name p = None ->
     exists e,
       run = ([Call (Roster team_name year); Print (roster_fault_report team_name e)],
              inr None)).
Proof.
  cbv zeta. repeat split.
  - apply get_player_position_returns.
  - intros before p after Htok Hroster Hbefore Hmatch.
    rewrite get_player_position_unfold, Htok, Hroster.
    rewrite scan_roster_skip by exact Hbefore.
    now rewrite scan_roster_match by exact Hmatch.
  - intros roster Htok Hroster Hall.
    rewrite get_player_position_unfold, Htok, Hroster.
    rewrite <- (app_nil_r roster).
    now rewrite scan_roster_skip by exact Hall.
  - intros Htok. now rewrite get_player_position_unfold, Htok.
  - intros e Htok Hroster. now rewrite get_player_position_unfold, Htok, Hroster.
  - intros before p after Htok Hroster Hbefore Hnone.
    rewrite get_player_position_unfold, Htok, Hroster.
    rewrite scan_roster_skip by exact Hbefore.
    destruct (scan_roster_nameless player_name p after Hnone) as [e He].
    exists e. now rewrite He.
Qed.

End Resolver.

Lemma get_player_position_first_match_witness :
  get_player_position Sample.online "JOE BURROW" "LSU" 2019
  = ([Call (Roster "LSU" 2019)], inr (Some "QB")) /\
  get_player_position Sample.online "Nobody" "LSU" 2019
  = ([Call (Roster "LSU" 2019)], inr None) /\
  get_player_position Sample.offline "Joe Burrow" "LSU" 2019
  = ([Call (Roster "LSU" 2019);
      Print "CFBD API Error while fetching roster for LSU: (503) Service Unavailable"],
     inr None) /\
  get_player_position Sample.no_token "Joe Burrow" "LSU" 2019
  = ([Print ("An unexpected error occurred while fetching roster: " ++ api_key_missing)],
     inr None) /\
  outcome (get_player_position Sample.nameless "Joe Burrow" "LSU" 2019) = inr None.
Proof.
  pose proof (get_player_position_first_match Sample.no_token "Joe Burrow" "LSU" 2019)
    as (_ & _ & _ & Hunset & _).
  pose proof (get_player_position_first_match Sample.nameless "Joe Burrow" "LSU" 2019)
    as (_ & _ & _ & _ & _ & Hnameless).
  pose proof (get_player_position_first_match Sample.online "JOE BURROW" "LSU" 2019)
    as (_ & Hfirst & _).
  pose proof (get_player_position_first_match Sample.online "Nobody" "LSU" 2019)
    as (_ & _ & Hnone & _).
  pose proof (get_player_position_first_match Sample.offline "Joe Burrow" "LSU" 2019)
    as (_ & _ & _ & _ & Hfault & _).
  split; [|split; [|split; [|split]]].
  - apply (Hfirst [{| RosterPlayer.name := Some "Myles Brennan";
                      RosterPlayer.position := Some "QB" |}] _ _ eq_refl eq_refl).
    + reflexivity.
    + reflexivity.
  - apply (Hnone _ eq_refl eq_refl). reflexivity.
  - apply (Hfault _ eq_refl eq_refl).
  - apply (Hunset eq_refl).
  - destruct (Hnameless [{| RosterPlayer.name := Some "Myles Brennan";
                            RosterPlayer.position := Some "QB" |}]
                {| RosterPlayer.name := None; RosterPlayer.position := Some "WR" |}
                _ eq_refl eq_refl eq_refl eq_refl) as [e He].
    now rewrite He.
Defined.

(** ** The player stats aggregator *)

Section Aggregator.

Variable rt : runtime.

Lemma for_each_print {X} (l : list X) (line : X -> string) :
  for_each l (fun x => print (line x)) = (map (fun x => Print (line x)) l, inr tt).
Proof.
  induction l as [|x l IH]; [reflexivity|].
  cbn [for_each map]. now rewrite bind_print, IH.
Qed.

Lemma requests_app t1 t2 : requests (t1 ++ t2) = (requests t1 ++ requests t2)%list.
Proof. apply flat_map_app. Qed.

Lemma requests_print line t : requests (Print line :: t) = requests t.
Proof. reflexivity. Qed.

Lemma requests_call r t : requests (Call r :: t) = r :: requests t.
Proof. reflexivity. Qed.

Lemma requests_prints {X} (l : list X) (line : X -> string) :
  requests (map (fun x => Print (line x)) l) = [].
Proof. induction l; [reflexivity | exact IHl]. Qed.

Lemma requests_fetch_events team_name year categories :
  requests (fetch_events team_name year categories)
  = map (PlayerSeasonStats year team_name) categories.
Proof. induction categories as [|c cs IH]; [reflexivity|]. cbn. now f_equal. Qed.

Lemma next_match_silent player_name response :
  events (next_match player_name response) = [].
Proof.
  induction response as [|p response IH]; [reflexivity|].
  cbn [next_match]. destruct (PlayerStat.player p) as [n|]; [|reflexivity].
  cbn [attr_lower]. rewrite bind_ret.
  destruct (Py.lower n =? Py.lower player_name); [reflexivity | exact IH].
Qed.

(** On records that all have a name, the generator yields the first record
    with the player's name. *)
Lemma next_match_first_record player_name response :
  forallb (fun p => has_name (PlayerStat.player p)) response = true ->
  next_match player_name response
  = ret (option_map PlayerStat.to_dict (first_record player_name response)).
Proof.
  induction response as [|p response IH]; [reflexivity|].
  cbn [forallb]. intros H. apply andb_true_iff in H as [Hp Hrest].
  cbn [next_match first_record find]. destruct (PlayerStat.player p) as [n|]; [|discriminate].
  cbn [attr_lower same_name]. rewrite bind_ret.
  destruct (Py.lower n =? Py.lower player_name); [reflexivity | now apply IH].
Qed.

Lemma answers_inv team_name year category :
  answers rt team_name year category = true ->
  exists response,
    get_player_season_stats rt year team_name category = inr response /\
    forallb (fun p => has_name (PlayerStat.player p)) response = true.
Proof.
  unfold answers.
  destruct (get_player_season_stats rt year team_name category) as [e|response];
    [discriminate|].
  intros H. now exists response.
Qed.

Lemma show_player_stats_prints player_name team_name year position combined_stats :
  outcome (show_player_stats rt player_name team_name year position combined_stats) = inr tt /\
  requests (events (show_player_stats rt player_name team_name year position combined_stats)) = [].
Proof.
  unfold show_player_stats. destruct (nonempty combined_stats); [|split; reflexivity].
  rewrite bind_print, for_each_print. cbn [events outcome fst snd].
  split; [reflexivity|]. apply (requests_prints _ (stat_line rt combined_stats)).
Qed.

(** One round of the loop over the categories. *)
Lemma fetch_categories_cons player_name team_name year category rest combined_stats :
  fetch_categories rt player_name team_name year (category :: rest) combined_stats =
  match get_player_season_stats rt year team_name category with
  | inl e =>
      ([Print ("Fetching " ++ category ++ " stats...");
        Call (PlayerSeasonStats year team_name category)], inl e)
  | inr response =>
      match outcome (next_match player_name response) with
      | inl e =>
          ([Print ("Fetching " ++ category ++ " stats...");
            Call (PlayerSeasonStats year team_name category)], inl e)
      | inr found =>
          let combined_stats :=
            match found with
            | Some player_stats => merge_stats category player_stats combined_stats
            | None => combined_stats
            end in
          (Print ("Fetching " ++ category ++ " stats...")
           :: Call (PlayerSeasonStats year team_name category)
           :: events (fetch_categories rt player_name team_name year rest combined_stats),
           outcome (fetch_categories rt player_name team_name year rest combined_stats))
      end
  end.
Proof.
  cbn [fetch_categories]. rewrite bind_print, bind_remote.
  destruct (get_player_season_stats rt year team_name category) as [e|response]; [reflexivity|].
  cbn [events outcome fst snd].
  destruct response as [|p response].
  - cbn [nonempty next_match outcome ret snd]. now rewrite bind_ret.
  - cbn [nonempty].
    rewrite (pair_events_outcome (next_match player_name (p :: response))).
    rewrite next_match_silent.
    destruct (outcome (next_match player_name (p :: response))) as [e|found].
    + reflexivity.
    + rewrite bind_inr. cbn [app].
      destruct found as [[|item player_stats]|]; cbn [events outcome ret fst snd];
        rewrite bind_inr; reflexivity.
Qed.

(** When every category answers, the loop requests each of them once, in
    order, and adds up their contributions. *)
Lemma fetch_categories_answered player_name team_name year categories :
  forall combined_stats,
  forallb (answers rt team_name year) categories = true ->
  fetch_categories rt player_name team_name year categories combined_stats
  = (fetch_events team_name year categories,
     inr (fold_left (contribution rt player_name team_name year) categories combined_stats)).
Proof.
  induction categories as [|c cs IH]; intros combined_stats Hall; [reflexivity|].
  cbn [forallb] in Hall. apply andb_true_iff in Hall as [Hc Hrest].
  destruct (answers_inv _ _ _ Hc) as (response & Hresp & Hnamed).
  rewrite fetch_categories_cons, Hresp.
  rewrite (next_match_first_record _ _ Hnamed). cbn [outcome ret snd].
  cbn [fold_left fetch_events flat_map app]. unfold contribution at 2. rewrite Hresp.
  destruct (first_record player_name response) as [p|]; cbn [option_map];
    cbv zeta; now rewrite IH.
Qed.

(** Whatever the answers, the loop requests an initial segment of the
    categories, in order; it requests them all when it ends without an
    exception. *)
Lemma fetch_categories_requests player_name team_name year categories :
  forall combined_stats,
  exists k,
    k <= length categories /\
    requests (events (fetch_categories rt player_name team_name year categories combined_stats))
    = map (PlayerSeasonStats year team_name) (firstn k categories) /\
    (forall final,
       outcome (fetch_categories rt player_name team_name year categories combined_stats)
       = inr final -> k = length categories).
Proof.
  induction categories as [|c cs IH]; intros combined_stats.
  - exists 0. repeat split; auto.
  - rewrite fetch_categories_cons.
    destruct (get_player_season_stats rt year team_name c) as [e|response].
    + exists 1. cbn. repeat split; [lia | discriminate].
    + destruct (outcome (next_match player_name response)) as [e|found].
      * exists 1. cbn. repeat split; [lia | discriminate].
      * cbv zeta.
        destruct (IH (match found with
                      | Some player_stats => merge_stats c player_stats combined_stats
                      | None => combined_stats
                      end)) as (k & Hk & Hreq & Hall).
        exists (S k). cbn [events outcome fst snd length firstn map].
        repeat split.
        -- lia.
        -- now rewrite requests_print, requests_call, Hreq.
        -- intros final Hfinal. now rewrite (Hall final Hfinal).
Qed.

(** The lookup of a player whose position is supported. *)
Lemma get_player_stats_by_name_supported player_name team_name year pos categories :
  outcome (get_player_position rt player_name team_name year) = inr (Some pos) ->
  lookup_position (Py.upper pos) POSITION_STAT_MAP = Some categories ->
  categories <> [] ->
  get_player_stats_by_name rt player_name team_name year =
  let loop := fetch_categories rt player_name team_name year categories [] in
  (Print (searching_line player_name team_name year)
   :: Call (Roster team_name year)
   :: events loop ++
      match outcome loop with
      | inl e => [Print (player_fault_report e)]
      | inr combined_stats =>
          events (show_player_stats rt player_name team_name year pos combined_stats)
      end,
   inr tt)%list.
Proof.
  intros Hpos Hlookup Hne. unfold get_player_stats_by_name.
  rewrite bind_print, (get_player_position_resolved _ _ _ _ _ Hpos), bind_inr.
  destruct pos as [|ch pos]; [discriminate|].
  rewrite Hlookup. destruct categories as [|c cs]; [congruence|].
  set (loop := fetch_categories rt player_name team_name year (c :: cs) []).
  cbv zeta. rewrite (pair_events_outcome loop).
  destruct (outcome loop) as [e|combined_stats].
  - rewrite bind_inl. unfold try_except. destruct e; reflexivity.
  - rewrite bind_inr. unfold try_except.
    destruct (show_player_stats_prints player_name team_name year (String ch pos) combined_stats)
      as [Hout _].
    cbn [events outcome fst snd] in *. rewrite Hout. reflexivity.
Qed.

(** The lookup of a player whose position is not supported. *)
Lemma get_player_stats_by_name_unsupported player_name team_name year pos :
  outcome (get_player_position rt player_name team_name year) = inr (Some pos) ->
  pos <> "" ->
  lookup_position (Py.upper pos) POSITION_STAT_MAP = None \/
  lookup_position (Py.upper pos) POSITION_STAT_MAP = Some [] ->
  get_player_stats_by_name rt player_name team_name year
  = ([Print (searching_line player_name team_name year);
      Call (Roster team_name year);
      Print (unsupported_position_report pos)], inr tt).
Proof.
  intros Hpos Hne Hlookup. unfold get_player_stats_by_name.
  rewrite bind_print, (get_player_position_resolved _ _ _ _ _ Hpos), bind_inr.
  destruct pos as [|ch pos]; [congruence|].
  destruct Hlookup as [-> | ->]; reflexivity.
Qed.


(** C3: when the resolver returns a position that [POSITION_STAT_MAP] does
    not list, or lists with no category, [get_player_stats_by_name] prints
    the line that says the position is not supported, with the position
    codes the map supports, and sends no request besides the roster request
    of the resolver. *)
Theorem unsupported_position_no_requests player_name team_name year pos :
  outcome (get_player_position rt player_name team_name year) = inr (Some pos) ->
  pos <> "" ->
  lookup_position (Py.upper pos) POSITION_STAT_MAP = None \/
  lookup_position (Py.upper pos) POSITION_STAT_MAP = Some [] ->
  get_player_stats_by_name rt player_name team_name year
  = ([Print (searching_line player_name team_name year);
      Call (Roster team_name year);
      Print (unsupported_position_report pos)], inr tt) /\
  requests (events (get_player_stats_by_name rt player_name team_name year))
  = [Roster team_name year].
Proof.
  intros Hpos Hne Hlookup.
  pose proof (get_player_stats_by_name_unsupported _ _ _ _ Hpos Hne Hlookup) as Hrun.
  split; [exact Hrun | now rewrite Hrun].
Qed.

(** C1 (amended): for a player whose position the map lists with at least
    one category, the player-season-stats requests sent are those of an
    initial segment of the category list, in the order of the list; and when
    every category's request answers with records that all have a name,
    there is exactly one request per category, the whole list in its order,
    and the mapping that is printed adds up, category after category, the
    fields of the first record of each response whose player name equals the
    target name once both are lower-cased. *)
Theorem requests_follow_category_order player_name team_name year pos categories :
  outcome (get_player_position rt player_name team_name year) = inr (Some pos) ->
  lookup_position (Py.upper pos) POSITION_STAT_MAP = Some categories ->
  categories <> [] ->
  let run := get_player_stats_by_name rt player_name team_name year in
  (exists k,
     k <= length categories /\
     requests (events run)
     = Roster team_name year :: map (PlayerSeasonStats year team_name) (firstn k categories)) /\
  (forallb (answers rt team_name year) categories = true ->
   let combined_stats :=
     fold_left (contribution rt player_name team_name year) categories [] in
   requests (events run)
   = Roster team_name year :: map (PlayerSeasonStats year team_name) categories /\
   run = ((Print (searching_line player_name team_name year)
           :: Call (Roster team_name year)
           :: fetch_events team_name year categories
              ++ events (show_player_stats rt player_name team_name year pos combined_stats))%list,
          inr tt)).
Proof.
  intros Hpos Hlookup Hne run. subst run.
  rewrite (get_player_stats_by_name_supported _ _ _ _ _ Hpos Hlookup Hne). cbv zeta.
  cbn [events fst]. rewrite requests_print, requests_call, requests_app.
  split.
  - destruct (fetch_categories_requests player_name team_name year categories [])
      as (k & Hk & Hreq & _).
    exists k. split; [exact Hk|]. rewrite Hreq.
    destruct (outcome (fetch_categories rt player_name team_name year categories [])) as [e|c].
    + cbn. now rewrite app_nil_r.
    + destruct (show_player_stats_prints player_name team_name year pos c) as [_ ->].
      now rewrite app_nil_r.
  - intros Hall. rewrite (fetch_categories_answered _ _ _ _ _ Hall).
    cbn [events outcome fst snd]. rewrite requests_fetch_events.
    destruct (show_player_stats_prints player_name team_name year pos
                (fold_left (contribution rt player_name team_name year) categories []))
      as [_ ->].
    now rewrite app_nil_r.
Qed.

(** What the generator yields is the mapping of a record of the response
    that carries the player's name. *)
Lemma next_match_found player_name response player_stats :
  outcome (next_match player_name response) = inr (Some player_stats) ->
  exists p, In p response /\ same_name player_name (PlayerStat.player p) = true /\
            player_stats = PlayerStat.to_dict p.
Proof.
  induction response as [|p response IH]; [discriminate|].
  cbn [next_match]. destruct (PlayerStat.player p) as [n|] eqn:Hn; [|discriminate].
  cbn [attr_lower]. rewrite bind_ret.
  destruct (Py.lower n =? Py.lower player_name) eqn:E.
  - intros H. inversion H. exists p. rewrite Hn. cbn. auto.
  - intros H. destruct (IH H) as (q & Hin & Hq). exists q. cbn. auto.
Qed.

(** Every key of the mapping the loop builds is a field of a matched record
    behind the name of the category it was fetched for. *)
Lemma fetch_categories_keys player_name team_name year categories :
  forall combined_stats final,
  outcome (fetch_categories rt player_name team_name year categories combined_stats)
  = inr final ->
  forall key, In key (keys final) ->
  In key (keys combined_stats) \/
  exists category response p field,
    In category categories /\
    get_player_season_stats rt year team_name category = inr response /\
    In p response /\ same_name player_name (PlayerStat.player p) = true /\
    In field (keys (PlayerStat.to_dict p)) /\ ~ In field identifying_fields /\
    key = category ++ "_" ++ field.
Proof.
  induction categories as [|c cs IH]; intros combined_stats final Hfinal key Hkey.
  - inversion Hfinal. subst. now left.
  - rewrite fetch_categories_cons in Hfinal.
    destruct (get_player_season_stats rt year team_name c) as [e|response] eqn:Hresp;
      [discriminate|].
    destruct (outcome (next_match player_name response)) as [e|found] eqn:Hfound;
      [discriminate|].
    cbv zeta in Hfinal. cbn [outcome snd] in Hfinal.
    destruct (IH _ _ Hfinal key Hkey) as [Hacc | (c' & r' & p & f & Hin & Hrest)].
    + destruct found as [player_stats|]; [|now left].
      apply merge_stats_keys in Hacc as [Hacc | (field & Hfield & Hid & ->)]; [now left|].
      destruct (next_match_found _ _ _ Hfound) as (p & Hp & Hname & ->).
      right. exists c, response, p, field. repeat split; auto. now left.
    + right. exists c', r', p, f. split; [now right | exact Hrest].
Qed.

End Aggregator.

(** C1 (as written, refuted): the position of Joe Burrow resolves to [QB],
    which the map lists with four categories, yet when the first request
    fails only that one request is sent. *)
Lemma requests_stop_at_fault :
  outcome (get_player_position Sample.stats_down "Joe Burrow" "LSU" 2019) = inr (Some "QB") /\
  lookup_position (Py.upper "QB") POSITION_STAT_MAP
  = Some ["passing"; "rushing"; "receiving"; "fumbles"] /\
  requests (events (get_player_stats_by_name Sample.stats_down "Joe Burrow" "LSU" 2019))
  = [Roster "LSU" 2019; PlayerSeasonStats 2019 "LSU" "passing"] /\
  requests (events (get_player_stats_by_name Sample.stats_down "Joe Burrow" "LSU" 2019))
  <> Roster "LSU" 2019
     :: map (PlayerSeasonStats 2019 "LSU") ["passing"; "rushing"; "receiving"; "fumbles"].
Proof. repeat split; discriminate. Qed.

Lemma requests_follow_category_order_witness :
  requests (events (get_player_stats_by_name Sample.online "joe burrow" "LSU" 2019))
  = [Roster "LSU" 2019; PlayerSeasonStats 2019 "LSU" "passing";
     PlayerSeasonStats 2019 "LSU" "rushing"; PlayerSeasonStats 2019 "LSU" "receiving";
     PlayerSeasonStats 2019 "LSU" "fumbles"].
Proof.
  refine (proj1 (proj2 (requests_follow_category_order Sample.online "joe burrow" "LSU" 2019
                          "QB" ["passing"; "rushing"; "receiving"; "fumbles"]
                          eq_refl eq_refl _) _)).
  - discriminate.
  - reflexivity.
Defined.

Lemma unsupported_position_no_requests_witness :
  get_player_stats_by_name Sample.online "Cade York" "LSU" 2019
  = ([Print "--- Searching for stats for Cade York on LSU (2019) ---";
      Call (Roster "LSU" 2019);
      Print (unsupported_position_report "PK")], inr tt) /\
  requests (events (get_player_stats_by_name Sample.online "Blake Ferguson" "LSU" 2019))
  = [Roster "LSU" 2019].
Proof.
  split.
  - apply (unsupported_position_no_requests Sample.online "Cade York" "LSU" 2019 "PK");
      [reflexivity | discriminate | left; reflexivity].
  - apply (unsupported_position_no_requests Sample.online "Blake Ferguson" "LSU" 2019 "LS");
      [reflexivity | discriminate | right; reflexivity].
Defined.

(** ** Sorting *)

Section SortFacts.

Lemma insert_sorted_perm x l : Permutation (Py.insert_sorted x l) (x :: l).
Proof.
  induction l as [|y l IH]; cbn; [reflexivity|].
  destruct (String.leb x y); [reflexivity|].
  rewrite IH. apply perm_swap.
Qed.

Lemma sorted_perm l : Permutation (Py.sorted l) l.
Proof.
  induction l as [|x l IH]; cbn; [reflexivity|].
  rewrite insert_sorted_perm. now constructor.
Qed.

Lemma insert_sorted_hd x y l :
  str_le y x -> HdRel str_le y l -> HdRel str_le y (Py.insert_sorted x l).
Proof.
  intros Hyx Hhd. destruct l as [|z l]; cbn.
  - now constructor.
  - destruct (String.leb x z); constructor; [exact Hyx|].
    now inversion Hhd.
Qed.

Lemma insert_sorted_sorted x l :
  Sorted str_le l -> Sorted str_le (Py.insert_sorted x l).
Proof.
  induction 1 as [|y l Hsorted IH Hhd]; cbn.
  - repeat constructor.
  - destruct (String.leb x y) eqn:E.
    + constructor; [now constructor | now constructor].
    + constructor; [exact IH|].
      apply insert_sorted_hd; [|exact Hhd].
      destruct (String.leb_total x y) as [H|H]; [congruence | exact H].
Qed.

Lemma sorted_sorted l : Sorted str_le (Py.sorted l).
Proof.
  induction l as [|x l IH]; cbn; [constructor|].
  now apply insert_sorted_sorted.
Qed.

Lemma sorted_in x l : In x (Py.sorted l) <-> In x l.
Proof.
  split; apply Permutation_in; [apply sorted_perm | symmetry; apply sorted_perm].
Qed.

End SortFacts.

(** ** The team comparator *)

Section Comparator.

Variable rt : runtime.

Lemma table_test a b :
  truthy a && truthy b && isinstance_dict a && isinstance_dict b
  = nonempty_dict a && nonempty_dict b.
Proof.
  destruct a as [| | | | |l|[|i d]], b as [| | | | |l'|[|i' d']]; cbn;
    rewrite ?andb_false_r; try reflexivity.
Qed.

Lemma compare_category_unfold team_a_name team_b_name stats_a stats_b category_name :
  compare_category rt team_a_name team_b_name stats_a stats_b category_name =
  let stats_a_cat := get stats_a category_name VNone in
  let stats_b_cat := get stats_b category_name VNone in
  (Print (section_header category_name)
   :: (if nonempty_dict stats_a_cat && nonempty_dict stats_b_cat
       then Print (table_header team_a_name team_b_name)
            :: Print table_rule
            :: map (fun stat_name =>
                      Print (stat_row rt (as_dict stats_a_cat) (as_dict stats_b_cat) stat_name))
                   (Py.sorted (keys (as_dict stats_a_cat)))
       else []),
   inr tt).
Proof.
  unfold compare_category. cbv zeta. rewrite bind_print, table_test.
  destruct (nonempty_dict (get stats_a category_name VNone)
            && nonempty_dict (get stats_b category_name VNone)).
  - rewrite !bind_print, for_each_print. reflexivity.
  - reflexivity.
Qed.

Lemma get_absent d k default : ~ In k (keys d) -> get d k default = default.
Proof. intros H. unfold get. now rewrite dict_get_not_in_keys. Qed.

(** C5: in a section whose table is printed, the rows are those of the keys
    of team A's mapping for the category, one row per key, in ascending
    order of the keys; a key that only team B's mapping has gets no row; and
    the row of a key that team B's mapping lacks shows [N/A] in team B's
    column. *)
Theorem table_rows_from_team_a team_a_name team_b_name stats_a stats_b category_name
    stats_a_cat stats_b_cat :
  get stats_a category_name VNone = VDict stats_a_cat ->
  get stats_b category_name VNone = VDict stats_b_cat ->
  stats_a_cat <> [] ->
  stats_b_cat <> [] ->
  let rows := Py.sorted (keys stats_a_cat) in
  compare_category rt team_a_name team_b_name stats_a stats_b category_name
  = (Print (section_header category_name)
     :: Print (table_header team_a_name team_b_name)
     :: Print table_rule
     :: map (fun stat_name => Print (stat_row rt stats_a_cat stats_b_cat stat_name)) rows,
     inr tt) /\
  Permutation rows (keys stats_a_cat) /\
  Sorted str_le rows /\
  (forall stat_name,
     In stat_name (keys stats_b_cat) -> ~ In stat_name (keys stats_a_cat) ->
     ~ In stat_name rows) /\
  (forall stat_name,
     In stat_name (keys stats_a_cat) -> ~ In stat_name (keys stats_b_cat) ->
     stat_row rt stats_a_cat stats_b_cat stat_name
     = Py.ljust (Py.title (Py.replace "_" " " stat_name)) 30
       ++ Py.ljust (py_str rt (get stats_a_cat stat_name (VStr "N/A"))) 20
       ++ Py.ljust "N/A" 20).
Proof.
  intros Ha Hb Hna Hnb rows. subst rows. repeat split.
  - rewrite compare_category_unfold. cbv zeta. rewrite Ha, Hb.
    destruct stats_a_cat; [congruence|]. destruct stats_b_cat; [congruence|]. reflexivity.
  - apply sorted_perm.
  - apply sorted_sorted.
  - intros stat_name _ Hnot Hin. apply Hnot. now apply sorted_in.
  - intros stat_name _ Hnot. unfold stat_row. now rewrite (get_absent stats_b_cat).
Qed.

(** C6 (amended): when the mapping of one team has no entry for a category,
    the comparator prints the header line of the section and nothing else for
    that category: no column titles, no rule, no row. *)
Theorem missing_section_prints_header_only team_a_name team_b_name stats_a stats_b
    category_name :
  dict_get category_name stats_a = None \/ dict_get category_name stats_b = None ->
  compare_category rt team_a_name team_b_name stats_a stats_b category_name
  = ([Print (section_header category_name)], inr tt).
Proof.
  intros H. rewrite compare_category_unfold. cbv zeta. unfold get.
  destruct H as [-> | ->]; cbn [nonempty_dict andb]; [|rewrite andb_false_r]; reflexivity.
Qed.

(** C10: the table of a category is printed exactly when the values of both
    teams for the category are mappings with at least one key; when either
    value is an empty mapping or is not a mapping, only the header line of
    the section is printed, as when the category is absent. *)
Theorem table_needs_two_nonempty_dicts team_a_name team_b_name stats_a stats_b category_name :
  let stats_a_cat := get stats_a category_name VNone in
  let stats_b_cat := get stats_b category_name VNone in
  let run := compare_category rt team_a_name team_b_name stats_a stats_b category_name in
  (nonempty_dict stats_a_cat = false \/ nonempty_dict stats_b_cat = false ->
   run = ([Print (section_header category_name)], inr tt)) /\
  (nonempty_dict stats_a_cat = true -> nonempty_dict stats_b_cat = true ->
   run = (Print (section_header category_name)
          :: Print (table_header team_a_name team_b_name)
          :: Print table_rule
          :: map (fun stat_name =>
                    Print (stat_row rt (as_dict stats_a_cat) (as_dict stats_b_cat) stat_name))
                 (Py.sorted (keys (as_dict stats_a_cat))),
          inr tt)) /\
  (forall v, nonempty_dict v = false <->
             (forall item d, v <> VDict (item :: d))).
Proof.
  cbv zeta. split; [|split].
  - intros H. rewrite compare_category_unfold. cbv zeta.
    destruct H as [-> | ->]; [|rewrite andb_false_r]; reflexivity.
  - intros Ha Hb. rewrite compare_category_unfold. cbv zeta. now rewrite Ha, Hb.
  - intros v. split.
    + intros H item d ->. discriminate.
    + intros H. destruct v as [| | | | |l|[|item d]]; try reflexivity.
      now destruct (H item d).
Qed.

Lemma compare_category_returns team_a_name team_b_name stats_a stats_b category_name :
  outcome (compare_category rt team_a_name team_b_name stats_a stats_b category_name) = inr tt.
Proof. now rewrite compare_category_unfold. Qed.

Lemma fetch_advanced_stats_unfold team_name year :
  fetch_advanced_stats rt team_name year =
  if token_set (access_token rt) then
    match get_advanced_season_stats rt year team_name with
    | inl e =>
        ([Print (fetching_line team_name year); Call (AdvancedSeasonStats year team_name);
          Print (stats_fault_report team_name e)], inr None)
    | inr [] =>
        ([Print (fetching_line team_name year); Call (AdvancedSeasonStats year team_name);
          Print ("No advanced stats found for " ++ team_name ++ " in " ++ Py.str_of_int year
                 ++ ". Please check the team name and year.")], inr None)
    | inr (first :: _) =>
        ([Print (fetching_line team_name year); Call (AdvancedSeasonStats year team_name)],
         inr (Some first))
    end
  else ([Print (stats_fault_report team_name (ValueError api_key_missing))], inr None).
Proof.
  unfold fetch_advanced_stats.
  destruct (token_set (access_token rt)); cbn [negb]; [|reflexivity].
  rewrite bind_print, bind_remote.
  destruct (get_advanced_season_stats rt year team_name) as [e|[|first response]].
  - destruct e; reflexivity.
  - reflexivity.
  - reflexivity.
Qed.

Lemma fetch_advanced_stats_returns team_name year :
  exists r, outcome (fetch_advanced_stats rt team_name year) = inr r.
Proof.
  rewrite fetch_advanced_stats_unfold.
  destruct (token_set (access_token rt)); [|eexists; reflexivity].
  destruct (get_advanced_season_stats rt year team_name) as [e|[|first response]];
    eexists; reflexivity.
Qed.

Lemma for_each_returns {X} (l : list X) (body : X -> M unit) :
  (forall x, outcome (body x) = inr tt) -> outcome (for_each l body) = inr tt.
Proof.
  intros H. induction l as [|x l IH]; [reflexivity|].
  cbn [for_each]. rewrite (pair_events_outcome (body x)), H, bind_inr. exact IH.
Qed.

(** The comparator is the two fetches, one after the other, and then the
    sections when both teams have stats. *)
Lemma compare_teams_unfold team_a_name team_b_name year :
  compare_teams rt team_a_name team_b_name year =
  let fetch_a := fetch_advanced_stats rt team_a_name year in
  let fetch_b := fetch_advanced_stats rt team_b_name year in
  (Print (comparing_line team_a_name team_b_name year)
   :: events fetch_a ++ events fetch_b ++
      match outcome fetch_a, outcome fetch_b with
      | inr (Some ((_ :: _) as stats_a)), inr (Some ((_ :: _) as stats_b)) =>
          events (for_each display_categories
                    (compare_category rt team_a_name team_b_name stats_a stats_b))
      | _, _ => []
      end,
   inr tt)%list.
Proof.
  unfold compare_teams. cbv zeta. rewrite bind_print.
  destruct (fetch_advanced_stats_returns team_a_name year) as [ra Ha].
  destruct (fetch_advanced_stats_returns team_b_name year) as [rb Hb].
  rewrite (pair_events_outcome (fetch_advanced_stats rt team_a_name year)), Ha, bind_inr.
  rewrite (pair_events_outcome (fetch_advanced_stats rt team_b_name year)), Hb, bind_inr.
  cbn [events outcome fst snd].
  destruct ra as [[|ia sa]|], rb as [[|ib sb]|]; cbn [events outcome ret fst snd];
    rewrite ?app_nil_r; try reflexivity.
  rewrite for_each_returns by (intros; apply compare_category_returns).
  reflexivity.
Qed.



Lemma compare_teams_returns team_a_name team_b_name year :
  outcome (compare_teams rt team_a_name team_b_name year) = inr tt.
Proof. now rewrite compare_teams_unfold. Qed.

End Comparator.

Lemma table_rows_from_team_a_witness :
  compare_category Sample.online "LSU" "Clemson" Sample.team_c Sample.team_b "total"
  = ([ Print (section_header "total");
       Print (table_header "LSU" "Clemson");
       Print table_rule;
       Print "Ties                          0                   N/A                 ";
       Print "Wins                          10                  10                  " ],
     inr tt) /\
  ~ In "losses" (Py.sorted (keys [ ("wins", VInt 10); ("ties", VInt 0) ])).
Proof.
  pose proof (table_rows_from_team_a Sample.online "LSU" "Clemson" Sample.team_c Sample.team_b
                "total" [ ("wins", VInt 10); ("ties", VInt 0) ]
                [ ("wins", VInt 10); ("losses", VInt 2) ] eq_refl eq_refl)
    as (Hrun & _ & _ & Honly_b & _); try discriminate.
  split.
  - exact Hrun.
  - apply Honly_b; cbn; intuition discriminate.
Defined.

(** C6 (as written, refuted): team B has no [defense] entry while team A has
    one, and the comparator still prints a line for the category. *)
Lemma missing_section_still_prints :
  dict_get "defense" Sample.team_a = Some (VDict [ ("havoc", VInt 1) ]) /\
  dict_get "defense" Sample.team_b = None /\
  compare_category Sample.online "LSU" "Clemson" Sample.team_a Sample.team_b "defense"
  = ([Print (Py.nl ++ "--- Defense ---")], inr tt) /\
  printed (events (compare_category Sample.online "LSU" "Clemson" Sample.team_a Sample.team_b
                     "defense")) <> [] /\
  printed (events (compare_teams Sample.online "LSU" "Clemson" 2019))
  = [ "--- Comparing Advanced Season Stats for LSU vs Clemson (2019) ---";
      "Fetching advanced stats for LSU in 2019...";
      "Fetching advanced stats for Clemson in 2019...";
      Py.nl ++ "--- Total ---";
      "Statistic                     LSU                 Clemson             ";
      "----------------------------------------------------------------------";
      "Wins                          10                  10                  ";
      Py.nl ++ "--- Offense ---";
      Py.nl ++ "--- Defense ---" ].
Proof. repeat split. discriminate. Qed.

Lemma missing_section_prints_header_only_witness :
  compare_category Sample.online "LSU" "Clemson" Sample.team_a Sample.team_b "defense"
  = ([Print (section_header "defense")], inr tt).
Proof.
  apply (missing_section_prints_header_only Sample.online "LSU" "Clemson"
           Sample.team_a Sample.team_b "defense").
  right. reflexivity.
Defined.

Lemma table_needs_two_nonempty_dicts_witness :
  compare_category Sample.online "LSU" "Clemson" Sample.team_c Sample.team_c "offense"
  = ([Print (section_header "offense")], inr tt) /\
  compare_category Sample.online "LSU" "Clemson" Sample.team_a Sample.team_c "defense"
  = ([Print (section_header "defense")], inr tt) /\
  compare_category Sample.online "LSU" "Clemson" Sample.team_a Sample.team_b "total"
  = ([ Print (section_header "total");
       Print (table_header "LSU" "Clemson");
       Print table_rule;
       Print "Wins                          10                  10                  " ],
     inr tt).
Proof.
  split; [|split].
  - apply (proj1 (table_needs_two_nonempty_dicts Sample.online "LSU" "Clemson"
                    Sample.team_c Sample.team_c "offense")).
    left. reflexivity.
  - apply (proj1 (table_needs_two_nonempty_dicts Sample.online "LSU" "Clemson"
                    Sample.team_a Sample.team_c "defense")).
    right. reflexivity.
  - apply (proj1 (proj2 (table_needs_two_nonempty_dicts Sample.online "LSU" "Clemson"
                           Sample.team_a Sample.team_b "total"))); reflexivity.
Defined.

(** ** The interactive menu *)

Section Menu.

Variable rt : runtime.

Lemma try_except_returns {A} (body : M A) handler a :
  outcome body = inr a -> try_except body handler = body.
Proof. destruct body as [t [e|a']]; [discriminate | reflexivity]. Qed.

Lemma get_player_stats_by_name_returns player_name team_name year :
  outcome (get_player_stats_by_name rt player_name team_name year) = inr tt.
Proof.
  destruct (get_player_position_returns rt player_name team_name year) as [r Hr].
  destruct r as [pos|].
  - destruct (lookup_position (Py.upper pos) POSITION_STAT_MAP) as [[|c cs]|] eqn:Hlookup.
    + destruct pos as [|ch pos]; [discriminate|].
      now rewrite (get_player_stats_by_name_unsupported rt _ _ _ _ Hr
                     ltac:(discriminate) (or_intror Hlookup)).
    + now rewrite (get_player_stats_by_name_supported rt _ _ _ _ _ Hr Hlookup
                     ltac:(discriminate)).
    + destruct pos as [|ch pos].
      * unfold get_player_stats_by_name.
        rewrite bind_print, (get_player_position_resolved rt _ _ _ _ Hr), bind_inr.
        reflexivity.
      * now rewrite (get_player_stats_by_name_unsupported rt _ _ _ _ Hr
                       ltac:(discriminate) (or_introl Hlookup)).
  - unfold get_player_stats_by_name. rewrite bind_print.
    rewrite (pair_events_outcome (get_player_position rt player_name team_name year)), Hr.
    rewrite bind_inr. reflexivity.
Qed.

(** The [try] block of a menu entry, for a year that does not read as an
    integer and for one that does. *)
Lemma year_block_invalid year_input (action : Z -> M unit) :
  Py.int_of_str year_input = None ->
  try_except (year <- int year_input ;; action year) except_ValueError
  = ([Print invalid_year], inr tt).
Proof. intros H. unfold int. rewrite H. reflexivity. Qed.

Lemma year_block_valid year_input year (action : Z -> M unit) :
  Py.int_of_str year_input = Some year ->
  outcome (action year) = inr tt ->
  try_except (year <- int year_input ;; action year) except_ValueError = action year.
Proof.
  intros H Hout. unfold int. rewrite H, bind_ret. now apply try_except_returns with tt.
Qed.

Lemma year_block_returns year_input (action : Z -> M unit) :
  (forall year, outcome (action year) = inr tt) ->
  outcome (try_except (year <- int year_input ;; action year) except_ValueError) = inr tt.
Proof.
  intros Hout. destruct (Py.int_of_str year_input) as [year|] eqn:H.
  - now rewrite (year_block_valid _ year).
  - now rewrite year_block_invalid.
Qed.

Lemma menu_compare team_a_name team_b_name year_input rest :
  menu rt ("1" :: team_a_name :: team_b_name :: year_input :: rest) =
  ((menu_lines ++ compare_prompts
    ++ events (try_except (year <- int year_input ;;
                           compare_teams rt team_a_name team_b_name year)
                          except_ValueError))%list,
   inr (true, rest)).
Proof.
  unfold menu. rewrite !bind_print. unfold input.
  rewrite bind_inr. cbn [String.eqb Ascii.eqb Bool.eqb andb].
  rewrite !bind_inr.
  set (block := try_except _ _).
  assert (outcome block = inr tt) as Hout
    by (apply year_block_returns; intros; apply compare_teams_returns).
  rewrite (pair_events_outcome block), Hout, bind_inr.
  cbn [events outcome ret fst snd app]. now rewrite app_nil_r.
Qed.

Lemma menu_lookup player_name team_name year_input rest :
  menu rt ("2" :: player_name :: team_name :: year_input :: rest) =
  ((menu_lines ++ lookup_prompts
    ++ events (try_except (year <- int year_input ;;
                           get_player_stats_by_name rt player_name team_name year)
                          except_ValueError))%list,
   inr (true, rest)).
Proof.
  unfold menu. rewrite !bind_print. unfold input.
  rewrite bind_inr. cbn [String.eqb Ascii.eqb Bool.eqb andb].
  rewrite !bind_inr.
  set (block := try_except _ _).
  assert (outcome block = inr tt) as Hout
    by (apply year_block_returns; intros; apply get_player_stats_by_name_returns).
  rewrite (pair_events_outcome block), Hout, bind_inr.
  cbn [events outcome ret fst snd app]. now rewrite app_nil_r.
Qed.

Lemma session_round fuel stdin t stdin' :
  menu rt stdin = (t, inr (true, stdin')) ->
  session rt (S fuel) stdin
  = ((t ++ events (session rt fuel stdin'))%list, outcome (session rt fuel stdin')).
Proof. intros H. cbn [session]. now rewrite H, bind_inr. Qed.

(** A round that goes on, or ends the loop, has read at least one line. *)
Lemma menu_consumes stdin again stdin' :
  outcome (menu rt stdin) = inr (again, stdin') -> length stdin' < length stdin.
Proof.
  destruct stdin as [|choice rest].
  - discriminate.
  - destruct (choice =? "1") eqn:E1; [|destruct (choice =? "2") eqn:E2].
    + apply String.eqb_eq in E1. subst choice.
      destruct rest as [|a [|b [|y rest]]]; try discriminate.
      rewrite menu_compare. intros H. inversion H. subst. cbn. lia.
    + apply String.eqb_eq in E2. subst choice.
      destruct rest as [|a [|b [|y rest]]]; try discriminate.
      rewrite menu_lookup. intros H. inversion H. subst. cbn. lia.
    + unfold menu. rewrite !bind_print. unfold input. rewrite bind_inr, E1, E2.
      destruct (choice =? "3"); cbn; intros H; inversion H; subst; lia.
Qed.

(** With more rounds allowed than there are lines to read, the loop ends by
    itself: on the exit choice, or on the end of the input. *)
Lemma session_enough_fuel fuel : forall stdin,
  length stdin < fuel -> outcome (session rt fuel stdin) <> inr OutOfFuel.
Proof.
  induction fuel as [|fuel IH]; intros stdin Hlen; [lia|].
  cbn [session].
  destruct (menu rt stdin) as [t [e|[again stdin']]] eqn:Hmenu.
  - discriminate.
  - rewrite bind_inr.
    assert (length stdin' < length stdin) as Hless
      by (apply (menu_consumes stdin again); now rewrite Hmenu).
    destruct again; [|discriminate].
    apply IH. lia.
Qed.


(** C9: when the year typed does not read as an integer, a round of the
    menu for a comparison or for a lookup prints the menu, the three
    prompts and the line that reports the invalid year, and nothing else: no
    request is sent, neither [compare_teams] nor [get_player_stats_by_name]
    is entered, and the loop goes on to its next round with the lines that
    follow. *)
Theorem invalid_year_no_network first second year_input rest :
  Py.int_of_str year_input = None ->
  menu rt ("1" :: first :: second :: year_input :: rest)
  = ((menu_lines ++ compare_prompts ++ [Print invalid_year])%list, inr (true, rest)) /\
  menu rt ("2" :: first :: second :: year_input :: rest)
  = ((menu_lines ++ lookup_prompts ++ [Print invalid_year])%list, inr (true, rest)) /\
  (forall choice,
     choice = "1" \/ choice = "2" ->
     let stdin := choice :: first :: second :: year_input :: rest in
     requests (events (menu rt stdin)) = [] /\
     forall fuel,
       session rt (S fuel) stdin
       = ((events (menu rt stdin) ++ events (session rt fuel rest))%list,
          outcome (session rt fuel rest))).
Proof.
  intros Hyear.
  assert (menu rt ("1" :: first :: second :: year_input :: rest)
          = ((menu_lines ++ compare_prompts ++ [Print invalid_year])%list, inr (true, rest)))
    as Hcompare by (now rewrite menu_compare, year_block_invalid).
  assert (menu rt ("2" :: first :: second :: year_input :: rest)
          = ((menu_lines ++ lookup_prompts ++ [Print invalid_year])%list, inr (true, rest)))
    as Hlookup by (now rewrite menu_lookup, year_block_invalid).
  split; [exact Hcompare|]. split; [exact Hlookup|].
  intros choice [-> | ->] stdin; subst stdin.
  - rewrite Hcompare. split; [reflexivity|]. intros fuel. now apply session_round.
  - rewrite Hlookup. split; [reflexivity|]. intros fuel. now apply session_round.
Qed.

End Menu.


Lemma invalid_year_no_network_witness :
  menu Sample.online ["1"; "LSU"; "Clemson"; "twenty"; "3"]
  = ((menu_lines ++ compare_prompts ++ [Print invalid_year])%list, inr (true, ["3"])) /\
  menu Sample.online ["2"; "Joe Burrow"; "LSU"; "20.19"; "3"]
  = ((menu_lines ++ lookup_prompts ++ [Print invalid_year])%list, inr (true, ["3"])) /\
  requests (events (menu Sample.online ["1"; "LSU"; "Clemson"; ""; "3"])) = [] /\
  menu Sample.online ["1"; "LSU"; "Clemson"; Cases.separator_2019; "3"]
  = ((menu_lines ++ compare_prompts ++ [Print invalid_year])%list, inr (true, ["3"])).
Proof.
  split; [|split; [|split]]; cycle 3.
  { apply (invalid_year_no_network Sample.online "LSU" "Clemson" Cases.separator_2019 ["3"]
             eq_refl). }
  - apply (invalid_year_no_network Sample.online "LSU" "Clemson" "twenty" ["3"] eq_refl).
  - apply (invalid_year_no_network Sample.online "Joe Burrow" "LSU" "20.19" ["3"] eq_refl).
  - apply (proj2 (proj2 (invalid_year_no_network Sample.online "LSU" "Clemson" "" ["3"]
                           eq_refl)) "1" (or_introl eq_refl)).
Defined.

(** * Further properties *)

(** ** Names and credentials *)

Section Access.

Variable rt : runtime.

Lemma scan_roster_lower a b roster :
  Py.lower a = Py.lower b -> scan_roster a roster = scan_roster b roster.
Proof.
  intros H. induction roster as [|p roster IH]; [reflexivity|].
  cbn [scan_roster]. now rewrite H, IH.
Qed.

Lemma next_match_lower a b response :
  Py.lower a = Py.lower b -> next_match a response = next_match b response.
Proof.
  intros H. induction response as [|p response IH]; [reflexivity|].
  cbn [next_match]. now rewrite H, IH.
Qed.

(** X1: the case of the letters of the name typed plays no part: two names
    that are equal once lower-cased resolve to the same position, with the
    same output, and fetch the same combined mapping. *)
Theorem lookup_ignores_case a b team_name year :
  Py.lower a = Py.lower b ->
  get_player_position rt a team_name year = get_player_position rt b team_name year /\
  forall categories combined_stats,
    fetch_categories rt a team_name year categories combined_stats
    = fetch_categories rt b team_name year categories combined_stats.
Proof.
  intros H. split.
  - rewrite !get_player_position_unfold.
    destruct (token_set (access_token rt)); [|reflexivity].
    destruct (get_roster rt team_name year) as [e|roster]; [reflexivity|].
    now rewrite (scan_roster_lower a b roster H).
  - induction categories as [|c cs IH]; intros combined_stats; [reflexivity|].
    rewrite !fetch_categories_cons.
    destruct (get_player_season_stats rt year team_name c) as [e|response]; [reflexivity|].
    rewrite (next_match_lower a b response H).
    destruct (outcome (next_match b response)) as [e|found]; [reflexivity|].
    cbv zeta. now rewrite IH.
Qed.

(** X2: without a credential nothing is ever requested: the fetch and the
    resolver report the missing key and return [None], the comparator stops
    after the two reports, and the lookup reports that the player could not
    be found. *)
Theorem no_credential_no_request :
  token_set (access_token rt) = false ->
  (forall team_name year,
     fetch_advanced_stats rt team_name year
     = ([Print (stats_fault_report team_name (ValueError api_key_missing))], inr None)) /\
  (forall team_a_name team_b_name year,
     compare_teams rt team_a_name team_b_name year
     = ([ Print (comparing_line team_a_name team_b_name year);
          Print (stats_fault_report team_a_name (ValueError api_key_missing));
          Print (stats_fault_report team_b_name (ValueError api_key_missing)) ], inr tt)) /\
  (forall player_name team_name year,
     get_player_stats_by_name rt player_name team_name year
     = ([ Print (searching_line player_name team_name year);
          Print (roster_fault_report team_name (ValueError api_key_missing));
          Print (could_not_find_line player_name team_name year) ], inr tt)).
Proof.
  intros Htok. split; [|split].
  - intros. now rewrite fetch_advanced_stats_unfold, Htok.
  - intros. rewrite compare_teams_unfold. cbv zeta.
    now rewrite !fetch_advanced_stats_unfold, Htok.
  - intros. unfold get_player_stats_by_name.
    now rewrite bind_print, get_player_position_unfold, Htok, bind_inr.
Qed.

End Access.

Lemma lookup_ignores_case_witness :
  get_player_position Sample.online "joe burrow" "LSU" 2019
  = get_player_position Sample.online "JOE BURROW" "LSU" 2019.
Proof.
  apply (lookup_ignores_case Sample.online "joe burrow" "JOE BURROW" "LSU" 2019 eq_refl).
Defined.

Lemma no_credential_no_request_witness :
  requests (events (compare_teams Sample.no_token "LSU" "Clemson" 2019)) = [] /\
  requests (events (get_player_stats_by_name Sample.no_token "Joe Burrow" "LSU" 2019)) = [].
Proof.
  pose proof (no_credential_no_request Sample.no_token eq_refl) as (_ & Hcompare & Hlookup).
  split.
  - now rewrite (Hcompare "LSU" "Clemson" 2019%Z).
  - now rewrite (Hlookup "Joe Burrow" "LSU" 2019%Z).
Defined.

(** ** The comparator as a whole *)

Section Comparison.

Variable rt : runtime.

Lemma bind_returns {A B} (m : M A) (f : A -> M B) a :
  outcome m = inr a ->
  bind m f = ((events m ++ events (f a))%list, outcome (f a)).
Proof. destruct m as [t r]. cbn. intros ->. apply bind_inr. Qed.

Lemma fetch_advanced_stats_usable team_name year :
  token_set (access_token rt) = true ->
  usable (get_advanced_season_stats rt year team_name) = true ->
  fetch_advanced_stats rt team_name year
  = ([Print (fetching_line team_name year); Call (AdvancedSeasonStats year team_name)],
     inr (Some (first_stats (get_advanced_season_stats rt year team_name)))).
Proof.
  intros Htok Huse. rewrite fetch_advanced_stats_unfold, Htok.
  destruct (get_advanced_season_stats rt year team_name) as [e|[|[|i d] r]];
    try discriminate. reflexivity.
Qed.

Lemma fetch_advanced_stats_unusable team_name year :
  usable (get_advanced_season_stats rt year team_name) = false ->
  outcome (fetch_advanced_stats rt team_name year) = inr None \/
  outcome (fetch_advanced_stats rt team_name year) = inr (Some []).
Proof.
  intros Huse. rewrite fetch_advanced_stats_unfold.
  destruct (token_set (access_token rt)); [|now left].
  destruct (get_advanced_season_stats rt year team_name) as [e|[|[|i d] r]];
    try discriminate; auto.
Qed.

(** X3: when the request of either team fails, or answers with no record,
    or with a first record whose mapping is empty, the comparator prints
    nothing after the lines of the two fetches: no section header and no
    table; the other team's request is sent all the same. *)
Theorem compare_teams_needs_both team_a_name team_b_name year :
  usable (get_advanced_season_stats rt year team_a_name) = false \/
  usable (get_advanced_season_stats rt year team_b_name) = false ->
  compare_teams rt team_a_name team_b_name year
  = ((Print (comparing_line team_a_name team_b_name year)
      :: events (fetch_advanced_stats rt team_a_name year)
      ++ events (fetch_advanced_stats rt team_b_name year))%list, inr tt).
Proof.
  intros H. rewrite compare_teams_unfold. cbv zeta.
  destruct H as [H|H]; apply fetch_advanced_stats_unusable in H as [-> | ->].
  - now rewrite app_nil_r.
  - now rewrite app_nil_r.
  - destruct (outcome (fetch_advanced_stats rt team_a_name year)) as [e|[[|i d]|]];
      now rewrite app_nil_r.
  - destruct (outcome (fetch_advanced_stats rt team_a_name year)) as [e|[[|i d]|]];
      now rewrite app_nil_r.
Qed.

(** X4: when both requests answer with a first record whose mapping is not
    empty, the comparator prints its title, sends the request of team A and
    then that of team B, and prints the sections [total], [offense] and
    [defense], in this order, from the first record of each answer; the
    records that follow the first are not looked at. *)
Theorem compare_teams_sections team_a_name team_b_name year :
  token_set (access_token rt) = true ->
  usable (get_advanced_season_stats rt year team_a_name) = true ->
  usable (get_advanced_season_stats rt year team_b_name) = true ->
  let stats_a := first_stats (get_advanced_season_stats rt year team_a_name) in
  let stats_b := first_stats (get_advanced_season_stats rt year team_b_name) in
  let section := compare_category rt team_a_name team_b_name stats_a stats_b in
  compare_teams rt team_a_name team_b_name year
  = ((Print (comparing_line team_a_name team_b_name year)
      :: Print (fetching_line team_a_name year)
      :: Call (AdvancedSeasonStats year team_a_name)
      :: Print (fetching_line team_b_name year)
      :: Call (AdvancedSeasonStats year team_b_name)
      :: events (section "total") ++ events (section "offense")
         ++ events (section "defense"))%list, inr tt).
Proof.
  intros Htok Ha Hb. cbv zeta. rewrite compare_teams_unfold. cbv zeta.
  rewrite (fetch_advanced_stats_usable _ _ Htok Ha), (fetch_advanced_stats_usable _ _ Htok Hb).
  cbn [events outcome fst snd app].
  destruct (get_advanced_season_stats rt year team_a_name) as [e|[|[|ia da] ra]];
    try discriminate.
  destruct (get_advanced_season_stats rt year team_b_name) as [e|[|[|ib db] rb]];
    try discriminate.
  cbn [first_stats display_categories for_each].
  rewrite !(bind_returns _ _ tt (compare_category_returns rt _ _ _ _ _)).
  cbn [events outcome ret fst snd]. now rewrite app_nil_r.
Qed.

End Comparison.

Lemma compare_teams_needs_both_witness :
  printed (events (compare_teams Sample.nameless "LSU" "Clemson" 2019))
  = [ "--- Comparing Advanced Season Stats for LSU vs Clemson (2019) ---";
      "Fetching advanced stats for LSU in 2019...";
      "No advanced stats found for LSU in 2019. Please check the team name and year.";
      "Fetching advanced stats for Clemson in 2019...";
      "No advanced stats found for Clemson in 2019. Please check the team name and year." ].
Proof.
  now rewrite (compare_teams_needs_both Sample.nameless "LSU" "Clemson" 2019
                 (or_introl eq_refl)).
Defined.

Lemma compare_teams_sections_witness :
  printed (events (compare_teams Cases.defense "LSU" "Tulane" 2019))
  = [ "--- Comparing Advanced Season Stats for LSU vs Tulane (2019) ---";
      "Fetching advanced stats for LSU in 2019...";
      "Fetching advanced stats for Tulane in 2019...";
      Py.nl ++ "--- Total ---";
      "Statistic                     LSU                 Tulane              ";
      "----------------------------------------------------------------------";
      "Wins                          10                  10                  ";
      Py.nl ++ "--- Offense ---";
      Py.nl ++ "--- Defense ---";
      "Statistic                     LSU                 Tulane              ";
      "----------------------------------------------------------------------";
      "Havoc                         1                   1                   " ].
Proof.
  now rewrite (compare_teams_sections Cases.defense "LSU" "Tulane" 2019
                 eq_refl eq_refl eq_refl).
Defined.

(** ** The shape of a table *)

Section Table.

Variable rt : runtime.

Lemma length_app (a b : string) :
  String.length (a ++ b) = String.length a + String.length b.
Proof. induction a as [|c a IH]; cbn; [reflexivity | now rewrite IH]. Qed.

Lemma length_repeat_char c n : String.length (Py.repeat_char c n) = n.
Proof. induction n as [|n IH]; cbn; [reflexivity | now rewrite IH]. Qed.

Lemma length_ljust s width :
  String.length (Py.ljust s width) = Nat.max (String.length s) width.
Proof. unfold Py.ljust. rewrite length_app, length_repeat_char. lia. Qed.

Lemma length_title_from b s : String.length (Py.title_from b s) = String.length s.
Proof.
  revert b. induction s as [|c s IH]; intros b; cbn; [reflexivity | now rewrite IH].
Qed.

Lemma length_underscores s :
  String.length (Py.replace "_" " " s) = String.length s.
Proof.
  unfold Py.replace. induction s as [|c s IH]; [reflexivity|].
  cbn [Py.replace_from Py.startswith String.length Nat.sub].
  destruct (Ascii.eqb "_" c); cbn; now rewrite IH.
Qed.

(** X5: a row of a table is made of the statistic's name in a column of 30
    characters and the two values in columns of 20: it is as wide as the rule
    under the column titles (70 characters) when the name has at most 30
    characters and each value shows in at most 20, and a longer name or value
    is not cut but widens its column. *)
Theorem stat_row_width stats_a_cat stats_b_cat stat_name :
  let shown_a := py_str rt (get stats_a_cat stat_name (VStr "N/A")) in
  let shown_b := py_str rt (get stats_b_cat stat_name (VStr "N/A")) in
  String.length (stat_row rt stats_a_cat stats_b_cat stat_name)
  = Nat.max (String.length stat_name) 30
    + Nat.max (String.length shown_a) 20 + Nat.max (String.length shown_b) 20 /\
  String.length table_rule = 70 /\
  (String.length stat_name <= 30 ->
   String.length shown_a <= 20 ->
   String.length shown_b <= 20 ->
   String.length (stat_row rt stats_a_cat stats_b_cat stat_name) = String.length table_rule).
Proof.
  cbv zeta.
  assert (String.length (stat_row rt stats_a_cat stats_b_cat stat_name)
          = Nat.max (String.length stat_name) 30
            + Nat.max (String.length (py_str rt (get stats_a_cat stat_name (VStr "N/A")))) 20
            + Nat.max (String.length (py_str rt (get stats_b_cat stat_name (VStr "N/A")))) 20)
    as Hwidth.
  { unfold stat_row. cbv zeta. rewrite !length_app, !length_ljust.
    unfold Py.title. rewrite length_title_from, length_underscores. lia. }
  split; [exact Hwidth|]. split; [reflexivity|].
  intros Hname Ha Hb. rewrite Hwidth. change (String.length table_rule) with 70. lia.
Qed.

Lemma str_le_iff x y :
  str_le x y <-> x = y \/ OrderedTypeEx.String_as_OT.lt x y.
Proof.
  unfold str_le, String.leb. split.
  - destruct (String.compare x y) eqn:E; [left|right|discriminate].
    + now apply OrderedTypeEx.String_as_OT.cmp_eq.
    + now apply OrderedTypeEx.String_as_OT.cmp_lt.
  - intros [H|H].
    + apply OrderedTypeEx.String_as_OT.cmp_eq in H.
      unfold OrderedTypeEx.String_as_OT.cmp in H. now rewrite H.
    + apply OrderedTypeEx.String_as_OT.cmp_lt in H.
      unfold OrderedTypeEx.String_as_OT.cmp in H. now rewrite H.
Qed.

Lemma str_le_trans x y z : str_le x y -> str_le y z -> str_le x z.
Proof.
  rewrite !str_le_iff. intros [->|H1] [->|H2]; auto.
  right. eapply OrderedTypeEx.String_as_OT.lt_trans; eassumption.
Qed.

(** Two sorted lists with the same elements are the same list. *)
Lemma sorted_unique l1 : forall l2,
  Sorted str_le l1 -> Sorted str_le l2 -> Permutation l1 l2 -> l1 = l2.
Proof.
  induction l1 as [|x l1 IH]; intros l2 H1 H2 Hperm.
  - apply Permutation_nil in Hperm. now subst.
  - destruct l2 as [|y l2].
    + symmetry in Hperm. now apply Permutation_nil in Hperm.
    + apply Sorted_StronglySorted in H1; [|exact str_le_trans].
      apply Sorted_StronglySorted in H2; [|exact str_le_trans].
      apply StronglySorted_inv in H1 as [H1 Hx]. apply StronglySorted_inv in H2 as [H2 Hy].
      assert (x = y) as ->.
      { assert (In x (y :: l2)) as Hin1 by (eapply Permutation_in; [exact Hperm | now left]).
        assert (In y (x :: l1)) as Hin2
          by (eapply Permutation_in; [symmetry; exact Hperm | now left]).
        destruct Hin1 as [->|Hin1]; [reflexivity|].
        destruct Hin2 as [->|Hin2]; [reflexivity|].
        rewrite Forall_forall in Hx, Hy.
        apply String.leb_antisym; [apply (Hx _ Hin2) | apply (Hy _ Hin1)]. }
      f_equal. apply IH.
      * now apply StronglySorted_Sorted.
      * now apply StronglySorted_Sorted.
      * now apply Permutation_cons_inv in Hperm.
Qed.

Lemma sorted_of_permutation l l' : Permutation l l' -> Py.sorted l = Py.sorted l'.
Proof.
  intros H. apply sorted_unique; try apply sorted_sorted.
  rewrite !sorted_perm. exact H.
Qed.

Lemma dict_get_in k v d : dict_get k d = Some v -> In (k, v) d.
Proof.
  induction d as [|[k0 v0] d IH]; cbn; [discriminate|].
  destruct (k0 =? k) eqn:E.
  - apply String.eqb_eq in E. intros H. inversion H. subst. now left.
  - intros H. right. now apply IH.
Qed.

Lemma in_dict_get k v d : NoDup (keys d) -> In (k, v) d -> dict_get k d = Some v.
Proof.
  induction d as [|[k0 v0] d IH]; cbn; [tauto|].
  intros Hnd [H|H].
  - inversion H. subst. now rewrite String.eqb_refl.
  - inversion Hnd as [|? ? Hnotin Hnd']; subst.
    destruct (k0 =? k) eqn:E.
    + apply String.eqb_eq in E. subst k0. exfalso. apply Hnotin.
      change k with (fst (k, v)). now apply in_map.
    + now apply IH.
Qed.

(** A mapping with unique keys answers the same whatever the order of its
    items. *)
Lemma dict_get_permutation d d' k :
  NoDup (keys d) -> Permutation d d' -> dict_get k d = dict_get k d'.
Proof.
  intros Hnd Hperm.
  assert (NoDup (keys d')) as Hnd'
    by (eapply Permutation_NoDup; [apply Permutation_map; exact Hperm | exact Hnd]).
  destruct (dict_get k d) as [v|] eqn:E.
  - symmetry. apply in_dict_get; [exact Hnd'|].
    eapply Permutation_in; [exact Hperm | now apply dict_get_in].
  - destruct (dict_get k d') as [v|] eqn:E'; [|reflexivity].
    apply dict_get_in in E'.
    rewrite (in_dict_get k v d Hnd) in E; [discriminate|].
    eapply Permutation_in; [symmetry; exact Hperm | exact E'].
Qed.

(** X6: what the comparator prints for a category depends on the two
    sub-mappings only through their content: putting the same items (with
    unique keys) in another order in either of them gives the same lines. *)
Theorem table_ignores_insertion_order team_a_name team_b_name category_name
    stats_a stats_b stats_a' stats_b' a b a' b' :
  get stats_a category_name VNone = VDict a ->
  get stats_b category_name VNone = VDict b ->
  get stats_a' category_name VNone = VDict a' ->
  get stats_b' category_name VNone = VDict b' ->
  NoDup (keys a) -> NoDup (keys b) ->
  Permutation a a' -> Permutation b b' ->
  compare_category rt team_a_name team_b_name stats_a' stats_b' category_name
  = compare_category rt team_a_name team_b_name stats_a stats_b category_name.
Proof.
  intros Ha Hb Ha' Hb' Hnda Hndb Hpa Hpb.
  rewrite !compare_category_unfold. cbv zeta. rewrite Ha, Hb, Ha', Hb'.
  assert (nonempty_dict (VDict a') = nonempty_dict (VDict a)) as ->.
  { destruct a, a'; try reflexivity.
    - now apply Permutation_nil in Hpa.
    - symmetry in Hpa. now apply Permutation_nil in Hpa. }
  assert (nonempty_dict (VDict b') = nonempty_dict (VDict b)) as ->.
  { destruct b, b'; try reflexivity.
    - now apply Permutation_nil in Hpb.
    - symmetry in Hpb. now apply Permutation_nil in Hpb. }
  cbn [as_dict].
  rewrite (sorted_of_permutation (keys a') (keys a))
    by (symmetry; apply Permutation_map; exact Hpa).
  destruct (nonempty_dict (VDict a) && nonempty_dict (VDict b)); [|reflexivity].
  do 4 f_equal. apply map_ext. intros stat_name. unfold stat_row, get.
  now rewrite (dict_get_permutation a a' stat_name Hnda Hpa),
    (dict_get_permutation b b' stat_name Hndb Hpb).
Qed.

End Table.

Lemma stat_row_width_witness :
  String.length (stat_row Sample.online [ ("wins", VInt 10) ] [ ("losses", VInt 2) ] "wins")
  = String.length table_rule.
Proof.
  apply (stat_row_width Sample.online [ ("wins", VInt 10) ] [ ("losses", VInt 2) ] "wins");
    cbn; lia.
Defined.

Lemma table_ignores_insertion_order_witness :
  compare_category Sample.online "LSU" "Clemson"
    [ ("total", VDict [ ("ties", VInt 0); ("wins", VInt 10) ]) ]
    [ ("total", VDict [ ("losses", VInt 2); ("wins", VInt 10) ]) ] "total"
  = compare_category Sample.online "LSU" "Clemson" Sample.team_c Sample.team_b "total".
Proof.
  apply (table_ignores_insertion_order Sample.online "LSU" "Clemson" "total"
           Sample.team_c Sample.team_b
           [ ("total", VDict [ ("ties", VInt 0); ("wins", VInt 10) ]) ]
           [ ("total", VDict [ ("losses", VInt 2); ("wins", VInt 10) ]) ]
           [ ("wins", VInt 10); ("ties", VInt 0) ] [ ("wins", VInt 10); ("losses", VInt 2) ]
           [ ("ties", VInt 0); ("wins", VInt 10) ] [ ("losses", VInt 2); ("wins", VInt 10) ]
           eq_refl eq_refl eq_refl eq_refl).
  - repeat constructor; cbn; intuition discriminate.
  - repeat constructor; cbn; intuition discriminate.
  - apply perm_swap.
  - apply perm_swap.
Defined.

(** ** The player lookup as a whole *)

Section Lookup.

Variable rt : runtime.

Lemma lookup_position_in k m v : lookup_position k m = Some v -> In (k, v) m.
Proof.
  induction m as [|[k0 v0] m IH]; cbn; [discriminate|].
  destruct (k0 =? k) eqn:E.
  - apply String.eqb_eq in E. intros H. inversion H. subst. now left.
  - intros H. right. now apply IH.
Qed.

(** The category lists of the map: at most four categories, all different,
    all among [category_names]. *)
Lemma position_categories k categories :
  lookup_position k POSITION_STAT_MAP = Some categories ->
  length categories <= 4 /\ NoDup categories /\ incl categories category_names.
Proof.
  intros H. apply lookup_position_in in H.
  assert (Forall (fun entry => length (snd entry) <= 4 /\ NoDup (snd entry)
                               /\ incl (snd entry) category_names) POSITION_STAT_MAP) as Hall.
  { unfold POSITION_STAT_MAP, category_names.
    repeat (apply Forall_cons; [cbn [snd length]; split; [lia|]; split;
      [repeat (constructor; [cbn; intuition discriminate|]); constructor
      | intros c Hc; cbn in Hc |- *; intuition]|]).
    constructor. }
  rewrite Forall_forall in Hall. exact (Hall _ H).
Qed.

(** The lookup of a player for whom the resolver gives no position. *)
Lemma get_player_stats_by_name_unresolved player_name team_name year position :
  outcome (get_player_position rt player_name team_name year) = inr position ->
  no_position position = true ->
  get_player_stats_by_name rt player_name team_name year
  = ((Print (searching_line player_name team_name year)
      :: events (get_player_position rt player_name team_name year)
      ++ [Print (could_not_find_line player_name team_name year)])%list, inr tt).
Proof.
  intros Hout Hno.
  unfold get_player_stats_by_name. rewrite bind_print, (bind_returns _ _ _ Hout).
  destruct position as [[|ch pos]|]; try discriminate; reflexivity.
Qed.

Lemma requests_unresolved player_name team_name year position :
  outcome (get_player_position rt player_name team_name year) = inr position ->
  no_position position = true ->
  requests (events (get_player_stats_by_name rt player_name team_name year)) = [] \/
  requests (events (get_player_stats_by_name rt player_name team_name year))
  = [Roster team_name year].
Proof.
  intros Hout Hno. rewrite (get_player_stats_by_name_unresolved _ _ _ _ Hout Hno).
  cbn [events fst].
  rewrite requests_print, requests_app, app_nil_r, get_player_position_unfold.
  destruct (token_set (access_token rt)); [|now left].
  destruct (get_roster rt team_name year) as [e|roster]; [now right|].
  destruct (outcome (scan_roster player_name roster)); now right.
Qed.

(** X7: when the resolver gives no position ([None], or an empty string),
    the lookup prints that the player could not be found, after whatever the
    resolver printed, and requests no player stats. *)
Theorem lookup_without_position player_name team_name year position :
  outcome (get_player_position rt player_name team_name year) = inr position ->
  no_position position = true ->
  get_player_stats_by_name rt player_name team_name year
  = ((Print (searching_line player_name team_name year)
      :: events (get_player_position rt player_name team_name year)
      ++ [Print (could_not_find_line player_name team_name year)])%list, inr tt) /\
  (requests (events (get_player_stats_by_name rt player_name team_name year)) = [] \/
   requests (events (get_player_stats_by_name rt player_name team_name year))
   = [Roster team_name year]).
Proof.
  intros Hout Hno. split.
  - now apply get_player_stats_by_name_unresolved with position.
  - now apply requests_unresolved with position.
Qed.

(** X8: a lookup sends at most five requests, whatever the collaborator
    answers: none at all, or the roster request followed by at most four
    player-stats requests, all of them for the team and the year of the
    lookup. *)
Theorem lookup_requests_bounded player_name team_name year :
  let sent := requests (events (get_player_stats_by_name rt player_name team_name year)) in
  length sent <= 5 /\
  (sent = [] \/
   exists categories,
     length categories <= 4 /\
     sent = Roster team_name year :: map (PlayerSeasonStats year team_name) categories).
Proof.
  cbv zeta.
  assert (requests (events (get_player_stats_by_name rt player_name team_name year)) = [] \/
          exists categories,
            length categories <= 4 /\
            requests (events (get_player_stats_by_name rt player_name team_name year))
            = Roster team_name year :: map (PlayerSeasonStats year team_name) categories)
    as Hshape.
  { destruct (get_player_position_returns rt player_name team_name year) as [position Hout].
    destruct (no_position position) eqn:Hno.
    - destruct (requests_unresolved _ _ _ _ Hout Hno) as [H|H]; [now left|].
      right. exists []. split; [cbn; lia | exact H].
    - destruct position as [[|ch pos]|]; try discriminate.
      right.
      destruct (lookup_position (Py.upper (String ch pos)) POSITION_STAT_MAP)
        as [[|c cs]|] eqn:Hlookup.
      + exists []. split; [cbn; lia|].
        now rewrite (get_player_stats_by_name_unsupported rt _ _ _ _ Hout
                       ltac:(discriminate) (or_intror Hlookup)).
      + destruct (position_categories _ _ Hlookup) as [Hlen _].
        rewrite (get_player_stats_by_name_supported rt _ _ _ _ _ Hout Hlookup
                   ltac:(discriminate)).
        cbv zeta. cbn [events fst]. rewrite requests_print, requests_call, requests_app.
        destruct (fetch_categories_requests rt player_name team_name year (c :: cs) [])
          as (k & Hk & Hreq & _).
        exists (firstn k (c :: cs)). split.
        * rewrite length_firstn. lia.
        * rewrite Hreq. f_equal.
          destruct (outcome (fetch_categories rt player_name team_name year (c :: cs) []))
            as [e|combined_stats].
          -- cbn. now rewrite app_nil_r.
          -- destruct (show_player_stats_prints rt player_name team_name year (String ch pos)
                         combined_stats) as [_ ->].
             now rewrite app_nil_r.
      + exists []. split; [cbn; lia|].
        now rewrite (get_player_stats_by_name_unsupported rt _ _ _ _ Hout
                       ltac:(discriminate) (or_introl Hlookup)). }
  split; [|exact Hshape].
  destruct Hshape as [-> | (categories & Hlen & ->)]; cbn [length]; [lia|].
  rewrite length_map. lia.
Qed.

End Lookup.

Lemma lookup_without_position_witness :
  get_player_stats_by_name Cases.defense "No Position" "LSU" 2019
  = ([ Print (searching_line "No Position" "LSU" 2019);
       Call (Roster "LSU" 2019);
       Print (could_not_find_line "No Position" "LSU" 2019) ], inr tt).
Proof.
  apply (lookup_without_position Cases.defense "No Position" "LSU" 2019 None eq_refl eq_refl).
Defined.

(** ** What the lookup shows *)

Section Shown.

Variable rt : runtime.

(** Keys of two different categories never meet. *)
Lemma category_keys_apart c1 c2 f1 f2 :
  In c1 category_names -> In c2 category_names ->
  c1 ++ "_" ++ f1 = c2 ++ "_" ++ f2 -> c1 = c2.
Proof.
  unfold category_names. cbn [In]. intros H1 H2 E.
  repeat match goal with
         | H : _ \/ _ |- _ => destruct H as [H|H]
         end; try contradiction; subst; try reflexivity; discriminate E.
Qed.

Lemma contribution_cases player_name team_name year combined_stats category :
  contribution rt player_name team_name year combined_stats category
  = match matched_record rt player_name team_name year category with
    | Some p => merge_stats category (PlayerStat.to_dict p) combined_stats
    | None => combined_stats
    end.
Proof.
  unfold contribution, matched_record.
  now destruct (get_player_season_stats rt year team_name category).
Qed.

(** The categories still to come leave the keys of the others alone. *)
Lemma contributions_keep player_name team_name year categories :
  forall combined_stats key,
  (forall category field, In category categories -> key <> category ++ "_" ++ field) ->
  dict_get key (fold_left (contribution rt player_name team_name year) categories combined_stats)
  = dict_get key combined_stats.
Proof.
  induction categories as [|c cs IH]; intros combined_stats key Hkey; [reflexivity|].
  cbn [fold_left]. rewrite IH by (intros c' f Hin; apply Hkey; now right).
  rewrite contribution_cases.
  destruct (matched_record rt player_name team_name year c) as [p|]; [|reflexivity].
  apply merge_stats_untouched. intros k _ _. apply Hkey. now left.
Qed.

Lemma contributions_hold player_name team_name year category p field v categories :
  forall combined_stats,
  NoDup categories -> incl categories category_names ->
  In category categories ->
  matched_record rt player_name team_name year category = Some p ->
  NoDup (keys (PlayerStat.to_dict p)) ->
  dict_get field (PlayerStat.to_dict p) = Some v ->
  ~ In field identifying_fields ->
  dict_get (category ++ "_" ++ field)
    (fold_left (contribution rt player_name team_name year) categories combined_stats)
  = Some v.
Proof.
  induction categories as [|c cs IH];
    intros combined_stats Hnd Hincl Hin Hmatch Hkeys Hget Hid; [contradiction|].
  inversion Hnd as [|? ? Hnotin Hnd']; subst. cbn [fold_left].
  destruct (string_dec c category) as [->|Hne].
  - rewrite contributions_keep.
    + rewrite contribution_cases, Hmatch. now apply merge_stats_copies.
    + intros c' f Hc' E. apply category_keys_apart in E.
      * now subst.
      * apply Hincl. now left.
      * apply Hincl. now right.
  - apply IH; auto.
    + intros x Hx. apply Hincl. now right.
    + destruct Hin as [E|Hin]; [congruence | exact Hin].
Qed.

Lemma show_player_stats_unfold player_name team_name year position combined_stats :
  show_player_stats rt player_name team_name year position combined_stats
  = (match combined_stats with
     | [] => [Print (no_stats_line player_name team_name year)]
     | _ => Print (player_header player_name position)
            :: map (fun stat_key => Print (stat_line rt combined_stats stat_key))
                   (Py.sorted (keys combined_stats))
     end, inr tt).
Proof.
  unfold show_player_stats. destruct combined_stats as [|item d]; [reflexivity|].
  cbn [nonempty]. now rewrite bind_print, for_each_print.
Qed.

(** X9: the stats found are shown one per line, in ascending order of their
    keys, under a header with the name and the position: each line is the
    label of the key in a column of 35 characters, a colon and the value;
    when nothing was found, the only line says so. *)
Theorem show_player_stats_lines player_name team_name year position combined_stats :
  let lines := Py.sorted (keys combined_stats) in
  (combined_stats <> [] ->
   show_player_stats rt player_name team_name year position combined_stats
   = (Print (player_header player_name position)
      :: map (fun stat_key => Print (stat_line rt combined_stats stat_key)) lines, inr tt)) /\
  (combined_stats = [] ->
   show_player_stats rt player_name team_name year position combined_stats
   = ([Print (no_stats_line player_name team_name year)], inr tt)) /\
  Permutation lines (keys combined_stats) /\
  Sorted str_le lines /\
  (forall stat_key v,
     dict_get stat_key combined_stats = Some v ->
     stat_line rt combined_stats stat_key
     = Py.ljust (display_label stat_key) 35 ++ ": " ++ py_str rt v).
Proof.
  cbv zeta. split; [|split; [|split; [|split]]].
  - intros Hne. rewrite show_player_stats_unfold. now destruct combined_stats.
  - intros ->. now rewrite show_player_stats_unfold.
  - apply sorted_perm.
  - apply sorted_sorted.
  - intros stat_key v Hget. unfold stat_line, get. now rewrite Hget.
Qed.

(** X10: when every category of the player's position answers, no field is
    lost on the way to the screen: each field, other than the five left out,
    of the record matched in a category is in the combined mapping under
    [category_field] with its value, whatever the other categories bring, and
    the lookup prints its line. *)
Theorem lookup_shows_every_field player_name team_name year pos categories
    category p field v :
  outcome (get_player_position rt player_name team_name year) = inr (Some pos) ->
  lookup_position (Py.upper pos) POSITION_STAT_MAP = Some categories ->
  forallb (answers rt team_name year) categories = true ->
  In category categories ->
  matched_record rt player_name team_name year category = Some p ->
  NoDup (keys (PlayerStat.to_dict p)) ->
  dict_get field (PlayerStat.to_dict p) = Some v ->
  ~ In field identifying_fields ->
  let combined_stats := fold_left (contribution rt player_name team_name year) categories [] in
  outcome (fetch_categories rt player_name team_name year categories []) = inr combined_stats /\
  dict_get (category ++ "_" ++ field) combined_stats = Some v /\
  In (Print (Py.ljust (display_label (category ++ "_" ++ field)) 35 ++ ": " ++ py_str rt v))
     (events (get_player_stats_by_name rt player_name team_name year)).
Proof.
  intros Hpos Hlookup Hall Hin Hmatch Hkeys Hget Hid combined_stats.
  destruct (position_categories _ _ Hlookup) as (_ & Hnd & Hincl).
  assert (dict_get (category ++ "_" ++ field) combined_stats = Some v) as Hfound
    by (subst combined_stats; eapply contributions_hold; eauto).
  split; [now rewrite (fetch_categories_answered rt _ _ _ _ _ Hall)|].
  split; [exact Hfound|].
  rewrite (get_player_stats_by_name_supported rt _ _ _ _ _ Hpos Hlookup)
    by (intros ->; contradiction).
  cbv zeta. rewrite (fetch_categories_answered rt _ _ _ _ _ Hall).
  cbn [events outcome fst snd]. fold combined_stats.
  right. right. apply in_or_app. right.
  rewrite show_player_stats_unfold. cbn [fst].
  destruct combined_stats as [|item d] eqn:E; [discriminate|]. rewrite <- E in *.
  right. unfold stat_line at 1.
  apply in_map_iff. exists (category ++ "_" ++ field). split.
  - unfold stat_line, get. now rewrite Hfound.
  - apply sorted_in. now apply dict_get_in_keys with v.
Qed.

(** X11: when every category of the player's position answers and none of
    the answers holds a record with the player's name, the lookup sends all
    the requests and then prints the line that says no stats were found. *)
Theorem lookup_without_match player_name team_name year pos categories :
  outcome (get_player_position rt player_name team_name year) = inr (Some pos) ->
  lookup_position (Py.upper pos) POSITION_STAT_MAP = Some categories ->
  categories <> [] ->
  forallb (answers rt team_name year) categories = true ->
  (forall category, In category categories ->
     matched_record rt player_name team_name year category = None) ->
  get_player_stats_by_name rt player_name team_name year
  = ((Print (searching_line player_name team_name year)
      :: Call (Roster team_name year)
      :: fetch_events team_name year categories
      ++ [Print (no_stats_line player_name team_name year)])%list, inr tt).
Proof.
  intros Hpos Hlookup Hne Hall Hnone.
  rewrite (get_player_stats_by_name_supported rt _ _ _ _ _ Hpos Hlookup Hne).
  cbv zeta. rewrite (fetch_categories_answered rt _ _ _ _ _ Hall).
  cbn [events outcome fst snd].
  assert (forall cs acc, (forall c, In c cs ->
            matched_record rt player_name team_name year c = None) ->
          fold_left (contribution rt player_name team_name year) cs acc = acc) as Hfold.
  { induction cs as [|c cs IH]; intros acc H; [reflexivity|].
    cbn [fold_left]. rewrite contribution_cases, (H c) by now left.
    apply IH. intros c' Hc'. apply H. now right. }
  rewrite (Hfold categories [] Hnone). now rewrite show_player_stats_unfold.
Qed.

(** X12: for a key of the categories defensive, interceptions, kicking and
    punting, which have no label of their own, the label shown is the whole
    key with underscores turned into spaces, title-cased, as long as the
    field part holds no prefix of the four labelled categories. *)
Theorem display_label_unlabelled category label field :
  In (category, label) unlabelled_categories ->
  plain_field field = true ->
  display_label (category ++ "_" ++ field)
  = label ++ " " ++ Py.title (Py.replace "_" " " field) /\
  display_label (category ++ "_" ++ field)
  = Py.title (Py.replace "_" " " (category ++ "_" ++ field)).
Proof.
  intros Hin Hplain.
  unfold plain_field, category_labels, Py.title, Py.replace in Hplain.
  cbn [forallb append] in Hplain.
  apply andb_true_iff in Hplain as [HP Hplain]. apply andb_true_iff in HP as [P1 P2].
  apply andb_true_iff in Hplain as [HR Hplain]. apply andb_true_iff in HR as [R1 R2].
  apply andb_true_iff in Hplain as [HV Hplain]. apply andb_true_iff in HV as [V1 V2].
  apply andb_true_iff in Hplain as [HF _]. apply andb_true_iff in HF as [F1 F2].
  apply negb_true_iff in P1, P2, R1, R2, V1, V2, F1, F2.
  cbn in Hin.
  destruct Hin as [E|[E|[E|[E|[]]]]]; inversion E; subst; clear E.
  all: unfold display_label, Py.title, Py.replace; cbn.
  all: rewrite ?P1, ?R1, ?V1, ?F1.
  all: rewrite (replace_from_absent _ _ _ P2), (replace_from_absent _ _ _ R2),
         (replace_from_absent _ _ _ V2), (replace_from_absent _ _ _ F2).
  all: split; reflexivity.
Qed.

End Shown.

Lemma show_player_stats_lines_witness :
  show_player_stats Sample.online "Joe Burrow" "LSU" 2019 "QB"
    [ ("passing_yards", VInt 5671); ("passing_completions", VInt 402) ]
  = ([ Print (player_header "Joe Burrow" "QB");
       Print "Passing Completions                : 402";
       Print "Passing Yards                      : 5671" ], inr tt) /\
  show_player_stats Sample.online "Joe Burrow" "LSU" 2019 "QB" []
  = ([Print "No stats found for Joe Burrow on team 'LSU' in 2019."], inr tt).
Proof.
  split.
  - apply (show_player_stats_lines Sample.online "Joe Burrow" "LSU" 2019 "QB"
             [ ("passing_yards", VInt 5671); ("passing_completions", VInt 402) ]).
    discriminate.
  - apply (show_player_stats_lines Sample.online "Joe Burrow" "LSU" 2019 "QB" []).
    reflexivity.
Defined.

Lemma lookup_shows_every_field_witness :
  In (Print "Defensive Total                    : 65")
     (events (get_player_stats_by_name Cases.defense "Grant Delpit" "LSU" 2019)) /\
  In (Print "Interceptions Total                : 2")
     (events (get_player_stats_by_name Cases.defense "Grant Delpit" "LSU" 2019)).
Proof.
  split.
  - refine (proj2 (proj2 (lookup_shows_every_field Cases.defense "Grant Delpit" "LSU" 2019 "s"
                            ["defensive"; "interceptions"; "fumbles"] "defensive"
                            Cases.tackles "total" (VInt 65)
                            eq_refl eq_refl eq_refl _ eq_refl _ eq_refl _))).
    + cbn. tauto.
    + repeat constructor; cbn; intuition discriminate.
    + cbn. intuition discriminate.
  - refine (proj2 (proj2 (lookup_shows_every_field Cases.defense "Grant Delpit" "LSU" 2019 "s"
                            ["defensive"; "interceptions"; "fumbles"] "interceptions"
                            Cases.picks "total" (VInt 2)
                            eq_refl eq_refl eq_refl _ eq_refl _ eq_refl _))).
    + cbn. tauto.
    + repeat constructor; cbn; intuition discriminate.
    + cbn. intuition discriminate.
Defined.

Lemma lookup_without_match_witness :
  printed (events (get_player_stats_by_name Sample.nameless "Myles Brennan" "LSU" 2019))
  = [ "--- Searching for stats for Myles Brennan on LSU (2019) ---";
      "Fetching passing stats..."; "Fetching rushing stats...";
      "Fetching receiving stats..."; "Fetching fumbles stats...";
      "No stats found for Myles Brennan on team 'LSU' in 2019." ].
Proof.
  rewrite (lookup_without_match Sample.nameless "Myles Brennan" "LSU" 2019 "QB"
             ["passing"; "rushing"; "receiving"; "fumbles"] eq_refl eq_refl).
  - reflexivity.
  - discriminate.
  - reflexivity.
  - intros category _. reflexivity.
Defined.

Lemma display_label_unlabelled_witness :
  display_label "defensive_solo_tackles" = "Defensive Solo Tackles".
Proof.
  apply (display_label_unlabelled "defensive" "Defensive" "solo_tackles").
  - cbn. tauto.
  - reflexivity.
Defined.

(** ** The menu loop as a whole *)

Section Loop.

Variable rt : runtime.

Lemma menu_exit rest : menu rt ("3" :: rest) = (exit_round, inr (false, rest)).
Proof. reflexivity. Qed.

Lemma menu_invalid choice rest :
  invalid_choice choice = true ->
  menu rt (choice :: rest) = (invalid_choice_round, inr (true, rest)).
Proof.
  unfold invalid_choice. intros H.
  apply andb_true_iff in H as [H H3]. apply andb_true_iff in H as [H1 H2].
  apply negb_true_iff in H1, H2, H3.
  unfold menu. rewrite !bind_print. unfold input. rewrite bind_inr, H1, H2, H3.
  reflexivity.
Qed.

Lemma invalid_choice_cases choice :
  choice = "1" \/ choice = "2" \/ choice = "3" \/ invalid_choice choice = true.
Proof.
  unfold invalid_choice.
  destruct (choice =? "1") eqn:E1; [apply String.eqb_eq in E1; auto|].
  destruct (choice =? "2") eqn:E2; [apply String.eqb_eq in E2; auto|].
  destruct (choice =? "3") eqn:E3; [apply String.eqb_eq in E3; auto|].
  auto.
Qed.

(** What a round does to the input: it reads a few lines from the front,
    and only the exit choice makes it the last round. *)
Lemma menu_reads stdin again stdin' :
  outcome (menu rt stdin) = inr (again, stdin') ->
  exists read, stdin = (read ++ stdin')%list /\ read <> [] /\
               (again = false -> read = ["3"]).
Proof.
  destruct stdin as [|choice rest]; [discriminate|].
  destruct (invalid_choice_cases choice) as [->|[->|[->|Hinv]]].
  - destruct rest as [|a [|b [|y rest]]]; try discriminate.
    rewrite menu_compare. intros H. inversion H. subst.
    exists ["1"; a; b; y]. repeat split; discriminate.
  - destruct rest as [|a [|b [|y rest]]]; try discriminate.
    rewrite menu_lookup. intros H. inversion H. subst.
    exists ["2"; a; b; y]. repeat split; discriminate.
  - rewrite menu_exit. intros H. inversion H. subst.
    exists ["3"]. repeat split. discriminate.
  - rewrite (menu_invalid _ _ Hinv). intros H. inversion H. subst.
    exists [choice]. repeat split; discriminate.
Qed.

Lemma menu_raises stdin e :
  outcome (menu rt stdin) = inl e -> e = EOFError "EOF when reading a line".
Proof.
  destruct stdin as [|choice rest]; [intros H; now inversion H|].
  destruct (invalid_choice_cases choice) as [->|[->|[->|Hinv]]].
  - destruct rest as [|a [|b [|y rest]]]; try (intros H; now inversion H).
    rewrite menu_compare. discriminate.
  - destruct rest as [|a [|b [|y rest]]]; try (intros H; now inversion H).
    rewrite menu_lookup. discriminate.
  - rewrite menu_exit. discriminate.
  - rewrite (menu_invalid _ _ Hinv). discriminate.
Qed.

(** X13: lines that are none of the three choices are answered one by one
    with the menu and the invalid-choice line, without any request; the exit
    choice then ends the loop with the goodbye line, leaving the lines after
    it unread. *)
Theorem session_skips_invalid_choices junk rest fuel :
  forallb invalid_choice junk = true ->
  length junk < fuel ->
  session rt fuel (junk ++ "3" :: rest)
  = ((flat_map (fun _ => invalid_choice_round) junk ++ exit_round)%list, inr (Exited rest)) /\
  requests (events (session rt fuel (junk ++ "3" :: rest))) = [].
Proof.
  intros Hjunk Hfuel.
  assert (session rt fuel (junk ++ "3" :: rest)
          = ((flat_map (fun _ => invalid_choice_round) junk ++ exit_round)%list,
             inr (Exited rest))) as Hrun.
  { revert fuel Hfuel. induction junk as [|choice junk IH]; intros fuel Hfuel.
    - destruct fuel as [|fuel]; [cbn in Hfuel; lia|].
      cbn [app flat_map session]. rewrite menu_exit, bind_inr.
      cbn [events outcome ret fst snd]. now rewrite app_nil_r.
    - cbn [forallb] in Hjunk. apply andb_true_iff in Hjunk as [Hchoice Hjunk].
      destruct fuel as [|fuel]; [cbn in Hfuel; lia|].
      cbn [app flat_map]. rewrite (session_round rt fuel _ _ _ (menu_invalid _ _ Hchoice)).
      rewrite (IH Hjunk fuel) by (cbn in Hfuel; lia).
      cbn [events outcome fst snd]. now rewrite app_assoc. }
  split; [exact Hrun|]. rewrite Hrun. cbn [events fst]. rewrite requests_app.
  assert (requests (flat_map (fun _ : string => invalid_choice_round) junk) = []) as ->
    by (clear; induction junk as [|c junk IH]; [reflexivity|];
        cbn [flat_map]; now rewrite requests_app, IH).
  reflexivity.
Qed.

(** X14: nothing but the end of the input makes the menu loop fail: a round
    raises no exception other than the [EOFError] of [input]; with more
    rounds allowed than there are lines, the loop ends with the exit choice
    or with that [EOFError]; and it ends normally only if the exit choice is
    among the lines, the lines left unread being those after it. *)
Theorem session_ends_by_exit_or_eof :
  (forall stdin e,
     outcome (menu rt stdin) = inl e -> e = EOFError "EOF when reading a line") /\
  (forall fuel stdin,
     length stdin < fuel ->
     (exists rest, outcome (session rt fuel stdin) = inr (Exited rest)) \/
     outcome (session rt fuel stdin) = inl (EOFError "EOF when reading a line")) /\
  (forall fuel stdin rest,
     outcome (session rt fuel stdin) = inr (Exited rest) ->
     exists before, stdin = (before ++ "3" :: rest)%list).
Proof.
  split; [exact menu_raises|]. split.
  - induction fuel as [|fuel IH]; intros stdin Hlen; [lia|].
    cbn [session].
    destruct (menu rt stdin) as [t [e|[again stdin']]] eqn:Hmenu.
    + right. rewrite bind_inl. cbn [outcome snd]. f_equal.
      apply (menu_raises stdin). now rewrite Hmenu.
    + rewrite bind_inr. cbn [outcome snd].
      assert (length stdin' < length stdin) as Hless
        by (apply (menu_consumes rt stdin again); now rewrite Hmenu).
      destruct again.
      * apply IH. lia.
      * left. now exists stdin'.
  - induction fuel as [|fuel IH]; intros stdin rest; [discriminate|].
    cbn [session].
    destruct (menu rt stdin) as [t [e|[again stdin']]] eqn:Hmenu; [discriminate|].
    rewrite bind_inr. cbn [outcome snd].
    destruct (menu_reads stdin again stdin') as (read & -> & _ & Hlast);
      [now rewrite Hmenu|].
    destruct again.
    + intros H. destruct (IH _ _ H) as [before ->].
      exists (read ++ before)%list. now rewrite app_assoc.
    + intros H. inversion H. subst. rewrite Hlast by reflexivity. now exists [].
Qed.

(** X15: when the year typed reads as an integer, a round of the menu is
    the menu, the three prompts and then exactly what [compare_teams], or
    [get_player_stats_by_name], does with the two names typed and that
    integer; the loop then goes on with the lines that follow. *)
Theorem menu_delegates first second year_input year rest :
  Py.int_of_str year_input = Some year ->
  menu rt ("1" :: first :: second :: year_input :: rest)
  = ((menu_lines ++ compare_prompts ++ events (compare_teams rt first second year))%list,
     inr (true, rest)) /\
  menu rt ("2" :: first :: second :: year_input :: rest)
  = ((menu_lines ++ lookup_prompts
      ++ events (get_player_stats_by_name rt first second year))%list,
     inr (true, rest)).
Proof.
  intros Hyear. split.
  - rewrite menu_compare, (year_block_valid _ year); auto using compare_teams_returns.
  - rewrite menu_lookup, (year_block_valid _ year);
      auto using get_player_stats_by_name_returns.
Qed.

End Loop.

Lemma session_skips_invalid_choices_witness :
  session Sample.offline 5 ["compare"; ""; "4"; "3"; "1"]
  = ((invalid_choice_round ++ invalid_choice_round ++ invalid_choice_round ++ exit_round)%list,
     inr (Exited ["1"])).
Proof.
  apply (session_skips_invalid_choices Sample.offline ["compare"; ""; "4"] ["1"] 5 eq_refl).
  cbn. lia.
Defined.

Lemma session_ends_by_exit_or_eof_witness :
  outcome (session Sample.online 6 ["9"; "2"; "Joe Burrow"; "LSU"])
  = inl (EOFError "EOF when reading a line") /\
  outcome (session Sample.online 6 ["9"; "3"; "LSU"]) = inr (Exited ["LSU"]).
Proof.
  pose proof (session_ends_by_exit_or_eof Sample.online) as (_ & Hends & _).
  split.
  - destruct (Hends 6 ["9"; "2"; "Joe Burrow"; "LSU"] ltac:(cbn; lia)) as [[rest H]|H].
    + discriminate H.
    + exact H.
  - destruct (Hends 6 ["9"; "3"; "LSU"] ltac:(cbn; lia)) as [[rest H]|H].
    + rewrite H. cbn in H. inversion H. reflexivity.
    + discriminate H.
Defined.

Lemma menu_delegates_witness :
  menu Sample.offline ["1"; "LSU"; "Clemson"; " 2_019 "; "3"]
  = ((menu_lines ++ compare_prompts
      ++ events (compare_teams Sample.offline "LSU" "Clemson" 2019))%list,
     inr (true, ["3"])).
Proof.
  apply (menu_delegates Sample.offline "LSU" "Clemson" " 2_019 " 2019 ["3"] eq_refl).
Defined.

(** ** The merge inside the lookup *)

Section Merge.

Variable rt : runtime.

(** When the generator ends without an exception, what it yields is the
    mapping of the first record with the player's name. *)
Lemma next_match_result player_name response found :
  outcome (next_match player_name response) = inr found ->
  found = option_map PlayerStat.to_dict (first_record player_name response).
Proof.
  induction response as [|p response IH]; [intros H; now inversion H|].
  cbn [next_match first_record find].
  destruct (PlayerStat.player p) as [n|]; [|discriminate].
  cbn [attr_lower same_name]. rewrite bind_ret.
  destruct (Py.lower n =? Py.lower player_name).
  - intros H. now inversion H.
  - exact IH.
Qed.

(** When the loop ends without an exception, its mapping is the one the
    merges of the matched records build, category after category. *)
Lemma fetch_categories_result player_name team_name year categories :
  forall combined_stats final,
  outcome (fetch_categories rt player_name team_name year categories combined_stats)
  = inr final ->
  final = fold_left (contribution rt player_name team_name year) categories combined_stats.
Proof.
  induction categories as [|c cs IH]; intros combined_stats final Hfinal.
  - now inversion Hfinal.
  - rewrite fetch_categories_cons in Hfinal. cbn [fold_left].
    unfold contribution at 2.
    destruct (get_player_season_stats rt year team_name c) as [e|response];
      [discriminate|].
    destruct (outcome (next_match player_name response)) as [e|found] eqn:Hfound;
      [discriminate|].
    apply next_match_result in Hfound. subst found.
    cbv zeta in Hfinal. cbn [outcome snd] in Hfinal.
    destruct (first_record player_name response) as [p|]; cbn [option_map] in Hfinal;
      now apply IH.
Qed.

(** The keys the merges of the matched records bring. *)
Lemma contributions_keys player_name team_name year categories :
  forall combined_stats key,
  In key (keys (fold_left (contribution rt player_name team_name year)
                  categories combined_stats)) ->
  In key (keys combined_stats) \/
  exists category p field,
    In category categories /\
    matched_record rt player_name team_name year category = Some p /\
    In field (keys (PlayerStat.to_dict p)) /\ ~ In field identifying_fields /\
    key = category ++ "_" ++ field.
Proof.
  induction categories as [|c cs IH]; intros combined_stats key Hkey; [now left|].
  cbn [fold_left] in Hkey.
  destruct (IH _ _ Hkey) as [Hacc | (c' & p & f & Hin & Hrest)].
  - rewrite contribution_cases in Hacc.
    destruct (matched_record rt player_name team_name year c) as [p|] eqn:Hp; [|now left].
    apply merge_stats_keys in Hacc as [Hacc | (field & Hfield & Hid & ->)]; [now left|].
    right. exists c, p, field. repeat split; auto. now left.
  - right. exists c', p, f. split; [now right | exact Hrest].
Qed.

(** C2: the merge copies every field of a matched record into the combined
    mapping under the key [category_field], except the fields [player],
    [team], [conference], [athlete_id] and [category], which it leaves out,
    and it leaves out no other field; and the loop over the categories does
    this merge for the matched record of every category: the mapping it ends
    with is the one these merges build, so for the categories of a position
    it holds every other field of every matched record under its prefixed key
    with its value, holds none of the five under any category, and all its
    keys are field names behind the name of the category they were fetched
    for. *)
Theorem merge_prefixes_fields player_name team_name year :
  identifying_fields = ["player"; "team"; "conference"; "athlete_id"; "category"] /\
  (forall category player_stats combined_stats,
     let merged := merge_stats category player_stats combined_stats in
     (forall field v,
        NoDup (keys player_stats) ->
        dict_get field player_stats = Some v ->
        ~ In field identifying_fields ->
        dict_get (category ++ "_" ++ field) merged = Some v) /\
     (forall field,
        In field identifying_fields ->
        dict_get (category ++ "_" ++ field) merged
        = dict_get (category ++ "_" ++ field) combined_stats) /\
     (forall key,
        In key (keys merged) <->
        In key (keys combined_stats) \/
        exists field, In field (keys player_stats) /\ ~ In field identifying_fields /\
                      key = category ++ "_" ++ field)) /\
  (forall categories combined_stats final,
     outcome (fetch_categories rt player_name team_name year categories combined_stats)
     = inr final ->
     final = fold_left (contribution rt player_name team_name year) categories combined_stats) /\
  (forall categories,
     forallb (answers rt team_name year) categories = true ->
     outcome (fetch_categories rt player_name team_name year categories [])
     = inr (fold_left (contribution rt player_name team_name year) categories [])) /\
  (forall position categories final,
     lookup_position position POSITION_STAT_MAP = Some categories ->
     outcome (fetch_categories rt player_name team_name year categories []) = inr final ->
     (forall category p field v,
        In category categories ->
        matched_record rt player_name team_name year category = Some p ->
        NoDup (keys (PlayerStat.to_dict p)) ->
        dict_get field (PlayerStat.to_dict p) = Some v ->
        ~ In field identifying_fields ->
        dict_get (category ++ "_" ++ field) final = Some v) /\
     (forall category field,
        In category category_names ->
        In field identifying_fields ->
        dict_get (category ++ "_" ++ field) final = None) /\
     (forall key,
        In key (keys final) ->
        exists category p field,
          In category categories /\
          matched_record rt player_name team_name year category = Some p /\
          In field (keys (PlayerStat.to_dict p)) /\ ~ In field identifying_fields /\
          key = category ++ "_" ++ field)).
Proof.
  split; [reflexivity|]. split; [|split; [|split]].
  - intros category player_stats combined_stats. cbv zeta. split; [|split].
    + intros field v Hnd Hget Hid. now apply merge_stats_copies.
    + intros field Hid. apply merge_stats_untouched.
      intros k _ Hk Heq. apply prefixed_key_inj in Heq. now subst.
    + apply merge_stats_keys.
  - intros categories combined_stats final. apply fetch_categories_result.
  - intros categories Hall. now rewrite (fetch_categories_answered rt _ _ _ _ _ Hall).
  - intros position categories final Hlookup Hfinal.
    destruct (position_categories _ _ Hlookup) as (_ & Hnd & Hincl).
    apply fetch_categories_result in Hfinal. subst final.
    assert (forall key,
              In key (keys (fold_left (contribution rt player_name team_name year)
                              categories [])) ->
              exists category p field,
                In category categories /\
                matched_record rt player_name team_name year category = Some p /\
                In field (keys (PlayerStat.to_dict p)) /\ ~ In field identifying_fields /\
                key = category ++ "_" ++ field) as Hkeys.
    { intros key Hkey. now destruct (contributions_keys _ _ _ _ _ _ Hkey) as [[]|H]. }
    split; [|split].
    + intros category p field v Hin Hmatch Hkeysp Hget Hid.
      eapply contributions_hold; eauto.
    + intros category field Hcat Hid.
      destruct (dict_get (category ++ "_" ++ field)
                  (fold_left (contribution rt player_name team_name year) categories []))
        as [v|] eqn:Hget; [|reflexivity].
      apply dict_get_in_keys in Hget.
      destruct (Hkeys _ Hget) as (c & p & f & Hc & _ & _ & Hf & Heq).
      pose proof (category_keys_apart _ _ _ _ Hcat (Hincl _ Hc) Heq) as ->.
      apply prefixed_key_inj in Heq. now subst.
    + exact Hkeys.
Qed.

End Merge.

Lemma merge_prefixes_fields_witness :
  let final := [ ("defensive_solo", VInt 38); ("defensive_total", VInt 65);
                 ("interceptions_total", VInt 2) ] in
  outcome (fetch_categories Cases.defense "Grant Delpit" "LSU" 2019
             ["defensive"; "interceptions"; "fumbles"] []) = inr final /\
  dict_get "defensive_total" final = Some (VInt 65) /\
  dict_get "interceptions_total" final = Some (VInt 2) /\
  dict_get "defensive_player" final = None /\
  dict_get "passing_yards" (merge_stats "passing" (PlayerStat.to_dict Sample.joe) [])
  = Some (VInt 5671).
Proof.
  cbv zeta.
  pose proof (merge_prefixes_fields Cases.defense "Grant Delpit" "LSU" 2019)
    as (_ & Hmerge & _ & _ & Hloop).
  destruct (Hloop "S" ["defensive"; "interceptions"; "fumbles"]
              [ ("defensive_solo", VInt 38); ("defensive_total", VInt 65);
                ("interceptions_total", VInt 2) ] eq_refl eq_refl)
    as (Hfield & Hnone & _).
  split; [reflexivity|]. split; [|split; [|split]].
  - apply (Hfield "defensive" Cases.tackles "total" (VInt 65)).
    + cbn. tauto.
    + reflexivity.
    + repeat constructor; cbn; intuition discriminate.
    + reflexivity.
    + cbn. intuition discriminate.
  - apply (Hfield "interceptions" Cases.picks "total" (VInt 2)).
    + cbn. tauto.
    + reflexivity.
    + repeat constructor; cbn; intuition discriminate.
    + reflexivity.
    + cbn. intuition discriminate.
  - apply (Hnone "defensive" "player"); cbn; tauto.
  - apply (proj1 (Hmerge "passing" (PlayerStat.to_dict Sample.joe) []) "yards" (VInt 5671)).
    + repeat constructor; cbn; intuition discriminate.
    + reflexivity.
    + cbn. intuition discriminate.
Defined.

(** ** Faults in the middle of a lookup, and years that are not integers *)


(** What [int] takes for a year. *)
Example int_of_str_examples :
  Py.int_of_str "2019" = Some 2019%Z /\
  Py.int_of_str " 2_019 " = Some 2019%Z /\
  Py.int_of_str "-12" = Some (-12)%Z /\
  Py.int_of_str Cases.separator_2019 = None /\
  Py.int_of_str "20.19" = None /\
  Py.int_of_str "2__019" = None /\
  Py.int_of_str "+ 1" = None /\
  Py.int_of_str "" = None /\
  Py.int_of_str (Py.repeat_char "1" 4300) <> None /\
  Py.int_of_str (Py.repeat_char "1" 4301) = None /\
  Py.int_of_str (Py.repeat_char "0" 4301) = None.
Proof.
  repeat split; try reflexivity; try (vm_compute; reflexivity).
  vm_compute. discriminate.
Qed.
